(** * ROOMii: the emotion fusion and stabilisation pipeline

    A shallow embedding of the algorithmic core of the ROOMii backend:

    - [voice_tone_analyzer.combine_emotions]  (face / voice fusion),
    - [mood_manager.combine_moods]            (mood reduction),
    - [emotion_calibration.cosine_similarity] and [match_emotion],
    - [emotion_detector.detect_emotion_sync]  (cache, bias correction,
      smoothing window) and the loop of the background monitor,
    - [voice_tone_analyzer.analyze_voice_tone] (the text signal),
    - [mood_manager.update_mood]               (the mood state),
    - the calibration store of [emotion_calibration],
    - [websocket_handler.handle_message] up to the choice of the
      persona, with [main.choose_personality], the speed table of
      [tts_output.speak] and the chat history of
      [ai_core.generate_response].

    Python [float]s are IEEE 754 binary64 numbers; they are modelled by
    Rocq's primitive [float]s, whose operations are the same binary64
    operations (round to nearest even).  A decimal literal such as [0.4]
    denotes, here as in Python, the binary64 number closest to it.  Labels
    are Python strings and are modelled by [string].

    Dicts are association lists in insertion order, which is the order
    in which Python iterates over them.  The camera, the clock, the
    calibration table and the DeepFace models are inputs of a call (a
    [world]); the globals of [emotion_detector] are an explicit [state],
    and the outside effects of a call are listed in a trace.  Calls are
    taken one at a time: the locks of the module are not modelled.

    Python's [sum] adds from the left.  The kernels of numpy ([np.dot],
    [np.linalg.norm], [np.mean]) are compiled code whose order of
    additions and use of fused multiply-add depend on the build: they
    are inputs of the calibration functions, like the models, and
    nothing is assumed about the values they return. *)

From Stdlib Require Import Floats String List Bool ZArith Lia.
From Stdlib Require Import Ascii NArith.
Import ListNotations.

Set Warnings "-inexact-float".

Local Open Scope string_scope.
Local Open Scope list_scope.
Local Open Scope float_scope.

(** ** Python builtins used by the backend *)

Module Py.

(** [a > b] on floats is [b < a]. *)
Definition gtb (a b : float) : bool := b <? a.

(** [min(a, b)]: the first argument, unless the second is smaller. *)
Definition min (a b : float) : float := if b <? a then b else a.

(** [sum(xs)]: additions from the left, starting from zero. *)
Definition sum (xs : list float) : float := fold_left PrimFloat.add xs 0.

(** [float(len(xs))]: list lengths are far below 2^53, so exact. *)
Definition len (xs : list float) : float :=
  of_uint63 (Uint63.of_Z (Z.of_nat (length xs))).

(** [sum(xs) / len(xs)], as written at both places that average. *)
Definition mean (xs : list float) : float := sum xs / len xs.

(** The loop of [max(iterable, key=...)]: the running maximum is
    replaced only by an item whose key is strictly greater. *)
Definition max_from {A} (key : A -> float) (m : A) (xs : list A) : A :=
  fold_left (fun m x => if gtb (key x) (key m) then x else m) xs m.

(** [max(iterable, key=...)]; [None] stands for the [ValueError] raised
    on an empty iterable. *)
Definition max_by {A} (key : A -> float) (xs : list A) : option A :=
  match xs with
  | [] => None
  | x :: xs => Some (max_from key x xs)
  end.

(** [x in xs] for a list of strings. *)
Definition str_in (x : string) (xs : list string) : bool :=
  existsb (String.eqb x) xs.

(** [d.get(k, default)] and [k in d] on a dict kept as an association
    list in insertion order. *)
Fixpoint dict_get {V} (d : list (string * V)) (k : string) : option V :=
  match d with
  | [] => None
  | (k', v) :: d => if String.eqb k k' then Some v else dict_get d k
  end.

(** [float(n)] for a count [n]; counts are far below 2^53, so exact. *)
Definition of_nat (n : nat) : float := of_uint63 (Uint63.of_Z (Z.of_nat n)).

(** [max(a, b)] on two numbers: the first, unless the second is greater. *)
Definition max2 (a b : float) : float := if gtb b a then b else a.

(** *** Strings

    A text is taken as the sequence of its code points, which the model
    keeps below 256: the letters with a case are then [A]-[Z], [a]-[z]
    and the accented letters of Latin-1. *)

(** [c.isupper()] for one character. *)
Definition chr_isupper (c : ascii) : bool :=
  let n := Ascii.N_of_ascii c in
  ((65 <=? n) && (n <=? 90) ||
   (192 <=? n) && (n <=? 222) && negb (n =? 215))%N.

(** [c.lower()] for one character. *)
Definition chr_lower (c : ascii) : ascii :=
  if chr_isupper c then Ascii.ascii_of_N (Ascii.N_of_ascii c + 32) else c.

(** [s.lower()]. *)
Fixpoint str_lower (s : string) : string :=
  match s with
  | EmptyString => EmptyString
  | String c s => String (chr_lower c) (str_lower s)
  end.

(** [sum(1 for c in s if c.isupper())]. *)
Fixpoint count_upper (s : string) : nat :=
  match s with
  | EmptyString => O
  | String c s => if chr_isupper c then S (count_upper s) else count_upper s
  end.

(** [s.count(c)] for a single character [c]. *)
Fixpoint count_char (c : ascii) (s : string) : nat :=
  match s with
  | EmptyString => O
  | String c' s => if Ascii.eqb c c' then S (count_char c s) else count_char c s
  end.

(** [sub in s] for strings. *)
Fixpoint contains (sub s : string) : bool :=
  String.prefix sub s ||
  match s with
  | EmptyString => false
  | String _ s' => contains sub s'
  end.

(** [s.startswith(p)]. *)
Definition startswith (s p : string) : bool := String.prefix p s.

(** The characters that [str.strip] removes, among code points below
    256. *)
Definition chr_isspace (c : ascii) : bool :=
  let n := Ascii.N_of_ascii c in
  ((9 <=? n) && (n <=? 13) || (28 <=? n) && (n <=? 32) ||
   (n =? 133) || (n =? 160))%N.

Fixpoint lstrip (s : string) : string :=
  match s with
  | EmptyString => EmptyString
  | String c s' => if chr_isspace c then lstrip s' else s
  end.

(** [s.rstrip()]: a character is dropped when it is a space and nothing
    but spaces follows it. *)
Fixpoint rstrip (s : string) : string :=
  match s with
  | EmptyString => EmptyString
  | String c s' =>
      match rstrip s' with
      | EmptyString => if chr_isspace c then EmptyString else String c EmptyString
      | rest => String c rest
      end
  end.

(** [s.strip()]. *)
Definition strip (s : string) : string := rstrip (lstrip s).

(** [xs[-n:]] for an integer [n]: the last [n] items when [n] is
    positive, everything when [n] is zero, and what follows the first
    [-n] items when [n] is negative. *)
Definition slice_last {A} (n : Z) (xs : list A) : list A :=
  if (0 <? n)%Z then skipn (length xs - Z.to_nat n) xs
  else skipn (Z.to_nat (- n)) xs.

End Py.

(** ** voice_tone_analyzer.py *)

Module voice_tone_analyzer.

Definition voice_weight : float := 0.4.
Definition face_weight : float := 0.6.

(** [combine_emotions].  The arguments are a label and a Python float
    for each signal, so [float(face_conf)] and [float(voice_conf)] are
    the identity and nothing in the body can raise: the [except] branch
    is not reachable and is not modelled. *)
Definition combine_emotions
    (face_emotion : string) (face_conf : float)
    (voice_emotion : string) (voice_conf : float) : string * float :=
  if face_conf <? 0.4 then (voice_emotion, voice_conf)
  else if voice_conf <? 0.4 then (face_emotion, face_conf)
  else if String.eqb face_emotion voice_emotion then
    (face_emotion,
     Py.min ((face_conf * face_weight + voice_conf * voice_weight) * 1.2) 1.0)
  else if Py.gtb (voice_conf * voice_weight) (face_conf * face_weight) then
    (voice_emotion, voice_conf * voice_weight)
  else
    (face_emotion, face_conf * face_weight).

(** The lexicon of [analyze_voice_tone]. *)
Definition happy_words : list string :=
  ["happy"; "great"; "awesome"; "love"; "excited"; "wonderful"; "amazing";
   "fantastic"; "yay"; "haha"; "lol"].
Definition sad_words : list string :=
  ["sad"; "depressed"; "down"; "unhappy"; "terrible"; "awful"; "bad"; "upset";
   "cry"; "hurt"].
Definition angry_words : list string :=
  ["angry"; "mad"; "furious"; "hate"; "annoyed"; "frustrated"; "irritated";
   "damn"; "stupid"].
Definition fear_words : list string :=
  ["scared"; "afraid"; "worried"; "anxious"; "nervous"; "terrified"; "panic";
   "fear"].

(** [sum(1 for word in words if word in text_lower)]. *)
Definition hits (words : list string) (text_lower : string) : nat :=
  length (filter (fun word => Py.contains word text_lower) words).

(** [text.count('!')] and the share of capitals,
    [sum(1 for c in text if c.isupper()) / max(len(text), 1)]. *)
Definition exclamation_count (text : string) : nat :=
  Py.count_char "!"%char text.

Definition caps_ratio (text : string) : float :=
  Py.of_nat (Py.count_upper text) / Py.of_nat (Nat.max (String.length text) 1).

(** The dict [scores] of [analyze_voice_tone], after the adjustments for
    punctuation and capitals.  The counts are integers in the source and
    turn into floats when a float is added; their values are the same. *)
Definition scores (text : string) : list (string * float) :=
  let text_lower := Py.str_lower text in
  let happy := hits happy_words text_lower in
  let sad := hits sad_words text_lower in
  let angry := hits angry_words text_lower in
  let fear := hits fear_words text_lower in
  let bangs := exclamation_count text in
  let happy_score :=
    if Nat.ltb 0 bangs && Nat.ltb 0 happy
    then Py.of_nat happy + Py.of_nat bangs * 0.5
    else Py.of_nat happy in
  let angry_score :=
    if Nat.ltb 0 bangs then
      if Nat.ltb 0 happy then Py.of_nat angry
      else if Nat.ltb 0 angry then Py.of_nat angry + Py.of_nat bangs * 0.5
      else Py.of_nat angry + Py.of_nat bangs * 0.2
    else Py.of_nat angry in
  let angry_score :=
    if Py.gtb (caps_ratio text) 0.3 then angry_score + 1.0 else angry_score in
  [("happy", happy_score); ("sad", Py.of_nat sad); ("angry", angry_score);
   ("fear", Py.of_nat fear); ("neutral", 0.5)].

(** The text has clear indicators: more than one exclamation mark or
    more than half capitals. *)
Definition clear_indicators (text : string) : bool :=
  Nat.ltb 1 (exclamation_count text) || Py.gtb (caps_ratio text) 0.5.

(** [analyze_voice_tone(text=...)].  The [except] branch answers
    [("neutral", 0.3)]; the only exception the body could raise is the
    one of [max] on an empty dict. *)
Definition analyze_voice_tone (text : string) : string * float :=
  match text with
  | EmptyString => ("neutral", 0.3)
  | _ =>
      match Py.max_by snd (scores text) with
      | None => ("neutral", 0.3)
      | Some dominant_emotion =>
          let total_score := Py.sum (map snd (scores text)) in
          let confidence :=
            Py.min (snd dominant_emotion / Py.max2 total_score 1) 0.8 in
          let confidence :=
            if clear_indicators text then Py.min (confidence + 0.1) 0.9
            else confidence in
          (fst dominant_emotion, confidence)
      end
  end.

End voice_tone_analyzer.

(** ** mood_manager.py *)

Module mood_manager.

Definition combine_moods (face_emotion voice_sentiment : string) : string :=
  if Py.str_in face_emotion ["angry"; "sad"; "fear"]
     || Py.str_in voice_sentiment ["negative"; "sad"]
  then "low"
  else if Py.str_in face_emotion ["happy"; "surprise"]
          || Py.str_in voice_sentiment ["positive"; "joy"]
  then "cheerful"
  else "neutral".

(** [current_mood_state]; [last_update] is a reading of the clock
    ([datetime.now()]), kept as a number. *)
Record mood_state : Type := {
  face_emotion : string;
  voice_sentiment : string;
  combined_mood : string;
  last_update : Z
}.

(** The state when the module is loaded at time [now]. *)
Definition initial_mood_state (now : Z) : mood_state :=
  {| face_emotion := "neutral"; voice_sentiment := "neutral";
     combined_mood := "neutral"; last_update := now |}.

(** [update_mood]; [now] is what [datetime.now()] reads during the call.
    The dict returned is the global itself, so the state after the call
    is also the first component of the result. *)
Definition update_mood (now : Z) (face voice : string) (st : mood_state)
  : mood_state * bool :=
  let new_mood := combine_moods face voice in
  let changed := negb (String.eqb new_mood (combined_mood st)) in
  if changed then
    ({| face_emotion := face; voice_sentiment := voice;
        combined_mood := new_mood; last_update := now |}, true)
  else
    ({| face_emotion := face_emotion st; voice_sentiment := voice_sentiment st;
        combined_mood := combined_mood st; last_update := now |}, false).

End mood_manager.

(** ** emotion_calibration.py *)

Module emotion_calibration.

(** An embedding is a list of floats ([json.loads] of the stored text,
    or the ['embedding'] field of what [DeepFace.represent] returns). *)
Definition embedding : Type := list float.

(** A camera frame; the external models are functions of it. *)
Definition frame : Type := list Z.

(** One row of the table [emotion_calibration]. *)
Record row : Type := Row {
  row_user_id : Z;
  row_emotion : string;
  row_embedding : embedding
}.

(** [calibration_data[emotion].append(embedding)], creating the key at
    the end of the dict when it is new: dicts keep insertion order. *)
Fixpoint dict_append {V} (d : list (string * list V)) (k : string) (v : V)
  : list (string * list V) :=
  match d with
  | [] => [(k, [v])]
  | (k', vs) :: d' =>
      if String.eqb k k' then (k', vs ++ [v]) :: d'
      else (k', vs) :: dict_append d' k v
  end.

Definition group_by_label {V} (xs : list (string * V))
  : list (string * list V) :=
  fold_left (fun d x => dict_append d (fst x) (snd x)) xs [].

(** [get_user_calibration]: the rows of the user, grouped by emotion;
    a database error ([None]) is caught and gives the empty dict. *)
Definition get_user_calibration (db : option (list row)) (user_id : Z)
  : list (string * list embedding) :=
  match db with
  | None => []
  | Some rows =>
      group_by_label
        (map (fun r => (row_emotion r, row_embedding r))
             (filter (fun r => Z.eqb (row_user_id r) user_id) rows))
  end.

(** [has_calibration]: [COUNT( * ) > 0]; [False] on a database error. *)
Definition has_calibration (db : option (list row)) (user_id : Z) : bool :=
  match db with
  | None => false
  | Some rows =>
      Nat.ltb 0 (length (filter (fun r => Z.eqb (row_user_id r) user_id) rows))
  end.

(** [clear_calibration]: [DELETE ... WHERE user_id = ?] and its commit.
    [committed] tells whether they go through; when either raises (a
    database that is locked, full or read-only) the exception is caught
    and logged, the rows stay, and the caller is told nothing. *)
Definition clear_calibration (db : option (list row)) (committed : bool)
    (user_id : Z) : option (list row) :=
  if committed
  then option_map (filter (fun r => negb (Z.eqb (row_user_id r) user_id))) db
  else db.

(** What the module calls in numpy: [np.dot] and [np.linalg.norm] of
    one-dimensional arrays and [np.mean] of a list of scalars.  [None]
    is the [ValueError] of [np.dot] for arrays of different lengths.
    The values are those of the numpy at hand; its results are binary64
    numbers, on which [/], [*] and [>] are the operations of Python
    floats, except that a zero divisor gives a warning and not an
    exception. *)
Record numpy : Type := {
  np_dot : embedding -> embedding -> option float;
  np_norm : embedding -> float;
  np_mean : list float -> float
}.

(** [cosine_similarity]: the quotient is formed without looking at the
    divisor. *)
Definition cosine_similarity (np : numpy) (vec1 vec2 : embedding) : option float :=
  match np_dot np vec1 vec2 with
  | None => None
  | Some d => Some (d / (np_norm np vec1 * np_norm np vec2))
  end.

(** The list comprehension of [match_emotion]: every stored sample of
    one emotion is compared with the current vector. *)
Fixpoint similarities_of (np : numpy) (current_vector : embedding)
    (embeddings : list embedding) : option (list float) :=
  match embeddings with
  | [] => Some []
  | emb :: rest =>
      match cosine_similarity np current_vector emb with
      | None => None
      | Some s =>
          match similarities_of np current_vector rest with
          | None => None
          | Some ss => Some (s :: ss)
          end
      end
  end.

(** The [for emotion, embeddings in calibration_data.items()] loop,
    threading [(best_match, best_similarity)]. *)
Fixpoint best_of (np : numpy) (current_vector : embedding)
    (calibration_data : list (string * list embedding))
    (best : option string * float) : option (option string * float) :=
  match calibration_data with
  | [] => Some best
  | (emotion, embeddings) :: rest =>
      match similarities_of np current_vector embeddings with
      | None => None
      | Some similarities =>
          let avg_similarity := np_mean np similarities in
          if Py.gtb avg_similarity (snd best)
          then best_of np current_vector rest (Some emotion, avg_similarity)
          else best_of np current_vector rest best
      end
  end.

(** [match_emotion].  [represent] stands for [DeepFace.represent] with
    the fixed model and detector: [None] when it raises, otherwise the
    embeddings of the faces found.  Every exception is caught by the
    function and gives [(None, 0.0)]. *)
Definition match_emotion
    (np : numpy)
    (db : option (list row))
    (represent : frame -> option (list embedding))
    (user_id : Z) (fr : frame) : option string * float :=
  match get_user_calibration db user_id with
  | [] => (None, 0)
  | calibration_data =>
      match represent fr with
      | None => (None, 0)
      | Some [] => (None, 0)
      | Some (current_vector :: _) =>
          match best_of np current_vector calibration_data (None, 0) with
          | None => (None, 0)
          | Some (best_match, best_similarity) =>
              if Py.gtb best_similarity 0.7
              then (best_match, best_similarity)
              else (None, best_similarity)
          end
      end
  end.

(** [save_calibration_sample], from the decoded frame on.  The embedding
    is stored as JSON text and read back by [get_user_calibration]; a
    list of floats survives that unchanged.  A model that raises or
    finds no face, and a database error, give [False] and store
    nothing. *)
Definition save_calibration_sample
    (db : option (list row))
    (represent : frame -> option (list embedding))
    (user_id : Z) (emotion : string) (fr : frame) : bool * option (list row) :=
  match represent fr with
  | None => (false, db)
  | Some [] => (false, db)
  | Some (embedding_vector :: _) =>
      match db with
      | None => (false, db)
      | Some rows => (true, Some (rows ++ [Row user_id emotion embedding_vector]))
      end
  end.

End emotion_calibration.

(** ** emotion_detector.py *)

Module emotion_detector.

Import emotion_calibration.

(** The two settings of [Config] that the detector reads.  The TTL is an
    integer number of seconds; the comparison with a difference of clock
    readings sees it as the float of the same value. *)
Record Config : Type := {
  EMOTION_CACHE_TTL : float;
  EMOTION_CONFIDENCE_THRESHOLD : float
}.

(** The values used when the environment does not override them. *)
Definition default_config : Config :=
  {| EMOTION_CACHE_TTL := 8; EMOTION_CONFIDENCE_THRESHOLD := 0.70 |}.

(** [_emotion_cache]. *)
Record cache_entry : Type := {
  emotion : string;
  confidence : float;
  timestamp : float
}.

(** The module's globals: the smoothing deque and the cache. *)
Record state : Type := {
  recent_emotions : list (string * float);
  _emotion_cache : cache_entry
}.

Definition initial_state : state :=
  {| recent_emotions := [];
     _emotion_cache := {| emotion := "neutral"; confidence := 0; timestamp := 0 |} |}.

(** [result[0]] of [DeepFace.analyze]: the dominant label and the score
    of every label, on the scale 0..100. *)
Record analysis : Type := {
  dominant_emotion : string;
  all_emotions : list (string * float)
}.

(** What one call reads from outside the module: the clock (once for
    the cache check, once for a cache write), the camera, the
    calibration table, the two DeepFace models and the kernels of
    numpy that the calibrator calls.  [None] stands for a failed read
    ([ret] false) or a raised exception. *)
Record world : Type := {
  time_check : float;
  time_write : float;
  cap_read : option frame;
  calibration_db : option (list row);
  represent : frame -> option (list embedding);
  analyze : frame -> option analysis;
  kernels : numpy
}.

(** The outside effects of a call, in the order they happen. *)
Inductive event : Type :=
| Capture
| HasCalibration (user_id : Z)
| MatchEmotion (user_id : Z)
| Analyze
| CacheWrite.

(** What a call leaves behind: the returned pair ([None] if an
    exception escapes), the globals, and the effects. *)
Record outcome : Type := {
  returned : option (string * float);
  final : state;
  trace : list event
}.

Definition maxlen : nat := 8.

(** [deque.append] on a deque bounded by [maxlen]: a full deque drops
    its oldest element first. *)
Definition deque_append {A} (q : list A) (x : A) : list A :=
  if Nat.eqb (length q) maxlen then tl q ++ [x] else q ++ [x].

(** Lines 88-101: the correction of a weak [fear] or [sad]. *)
Definition bias_correction (emotion : string) (confidence : float)
    (all_emotions : list (string * float)) : string * float :=
  if Py.str_in emotion ["fear"; "sad"] && (confidence <? 0.80) then
    let neutral_score :=
      match Py.dict_get all_emotions "neutral" with
      | Some s => s
      | None => 0
      end / 100.0 in
    let happy_score :=
      match Py.dict_get all_emotions "happy" with
      | Some s => s
      | None => 0
      end / 100.0 in
    if Py.gtb neutral_score (confidence - 0.15) then ("neutral", neutral_score)
    else if Py.gtb happy_score (confidence - 0.15) then ("happy", happy_score)
    else (emotion, confidence)
  else (emotion, confidence).

(** Lines 74-107: the generic classifier followed by the correction;
    [None] when the [try] block raises (the model fails, or the
    dominant label has no score). *)
Definition classify (w : world) (fr : frame) : option (string * float) :=
  match analyze w fr with
  | None => None
  | Some result =>
      match Py.dict_get (all_emotions result) (dominant_emotion result) with
      | None => None
      | Some score =>
          Some (bias_correction (dominant_emotion result) (score / 100.0)
                                (all_emotions result))
      end
  end.

(** Lines 112-126: the per-label means of the window, the label whose
    mean is the greatest, and the neutralisation of a low mean.
    [emotion_scores[stable_emotion]] is the value of the item that
    [max] returned, dict keys being unique. *)
Definition emotion_scores (window : list (string * float))
  : list (string * list float) :=
  group_by_label window.

Definition smooth (threshold : float) (window : list (string * float))
  : option (string * float) :=
  match Py.max_by (fun x => Py.mean (snd x)) (emotion_scores window) with
  | None => None
  | Some item =>
      let stable_emotion := fst item in
      let avg_confidence := Py.mean (snd item) in
      if avg_confidence <? threshold
      then Some ("neutral", avg_confidence)
      else Some (stable_emotion, avg_confidence)
  end.

(** [if user_id:] for an optional integer. *)
Definition truthy_user (user_id : option Z) : option Z :=
  match user_id with
  | Some u => if Z.eqb u 0 then None else Some u
  | None => None
  end.

(** Lines 47-71: the personalised match.  [Some] is the pair that the
    call returns at once; the effects come with it.  The functions of
    the calibrator catch their own exceptions. *)
Definition personalized (w : world) (user_id : option Z) (fr : frame)
  : option (string * float) * list event :=
  match truthy_user user_id with
  | None => (None, [])
  | Some u =>
      if has_calibration (calibration_db w) u then
        match match_emotion (kernels w) (calibration_db w) (represent w) u fr with
        | (Some e, c) =>
            if negb (String.eqb e "") && Py.gtb c 0.7
            then (Some (e, c), [HasCalibration u; MatchEmotion u])
            else (None, [HasCalibration u; MatchEmotion u])
        | (None, _) => (None, [HasCalibration u; MatchEmotion u])
        end
      else (None, [HasCalibration u])
  end.

Definition cache_fresh (cfg : Config) (now : float) (c : cache_entry) : bool :=
  now - timestamp c <? EMOTION_CACHE_TTL cfg.

(** [detect_emotion_sync]. *)
Definition detect_emotion_sync (cfg : Config) (w : world)
    (user_id : option Z) (bypass_cache : bool) (st : state) : outcome :=
  if negb bypass_cache && cache_fresh cfg (time_check w) (_emotion_cache st) then
    {| returned := Some (emotion (_emotion_cache st), confidence (_emotion_cache st));
       final := st; trace := [] |}
  else
    match cap_read w with
    | None =>
        {| returned := Some ("neutral", 0); final := st; trace := [Capture] |}
    | Some fr =>
        match personalized w user_id fr with
        | (Some (e, c), evs) =>
            {| returned := Some (e, c);
               final := {| recent_emotions := recent_emotions st;
                           _emotion_cache :=
                             {| emotion := e; confidence := c;
                                timestamp := time_write w |} |};
               trace := Capture :: evs ++ [CacheWrite] |}
        | (None, evs) =>
            match classify w fr with
            | None =>
                {| returned := Some ("neutral", 0); final := st;
                   trace := Capture :: evs ++ [Analyze] |}
            | Some sample =>
                let window := deque_append (recent_emotions st) sample in
                match smooth (EMOTION_CONFIDENCE_THRESHOLD cfg) window with
                | None =>
                    {| returned := None;
                       final := {| recent_emotions := window;
                                   _emotion_cache := _emotion_cache st |};
                       trace := Capture :: evs ++ [Analyze] |}
                | Some (stable_emotion, avg_confidence) =>
                    {| returned := Some (stable_emotion, avg_confidence);
                       final := {| recent_emotions := window;
                                   _emotion_cache :=
                                     {| emotion := stable_emotion;
                                        confidence := avg_confidence;
                                        timestamp := time_write w |} |};
                       trace := Capture :: evs ++ [Analyze; CacheWrite] |}
                end
            end
        end
    end.

(** [get_cached_emotion]. *)
Definition get_cached_emotion (st : state) : string * float :=
  (emotion (_emotion_cache st), confidence (_emotion_cache st)).

(** A call of [detect_emotion_sync] with what it reads from outside. *)
Record call : Type := {
  call_world : world;
  call_user : option Z;
  call_bypass : bool
}.

Definition do_call (cfg : Config) (c : call) (st : state) : outcome :=
  detect_emotion_sync cfg (call_world c) (call_user c) (call_bypass c) st.

(** The globals after a sequence of calls, one after the other. *)
Definition run_calls (cfg : Config) (calls : list call) (st : state) : state :=
  fold_left (fun st c => final (do_call cfg c st)) calls st.

(** [BackgroundEmotionMonitor._monitor_loop] over as many rounds as
    there are worlds: every round calls [detect_emotion_sync] for the
    monitor's user with [bypass_cache=True] and discards the result. *)
Definition _monitor_loop (cfg : Config) (user_id : option Z)
    (rounds : list world) (st : state) : state :=
  run_calls cfg
    (map (fun w => {| call_world := w; call_user := user_id; call_bypass := true |})
         rounds)
    st.

End emotion_detector.

(** ** personality.py *)

Module personality.

Record persona : Type := {
  style : string;
  prompt_tone : string;
  voice : string
}.

Definition PERSONALITIES : list (string * persona) :=
  [("cheerful",
    {| style := "energetic, friendly, motivating, playful";
       prompt_tone := "Be upbeat and positive. Use humor lightly. Show enthusiasm.";
       voice := "alloy" |});
   ("low",
    {| style := "empathetic, calm, gentle, therapist-like";
       prompt_tone :=
         "Speak softly and caringly. Always validate emotions. Offer comfort.";
       voice := "echo" |});
   ("neutral",
    {| style := "balanced, friendly, clear, conversational";
       prompt_tone := "Be natural and approachable. Keep it simple and genuine.";
       voice := "nova" |});
   ("stressed",
    {| style := "soothing, grounding, patient";
       prompt_tone :=
         "Be calm and reassuring. Help them breathe and center themselves.";
       voice := "shimmer" |});
   ("angry",
    {| style := "logical, composed, analytical, de-escalating";
       prompt_tone := "Be precise and rational. Offer structured advice. Stay calm.";
       voice := "fable" |})].

(** [switch_personality]: the global [current_persona] after the call. *)
Definition switch_personality (name : string) (current_persona : string) : string :=
  match Py.dict_get PERSONALITIES name with
  | Some _ => name
  | None => current_persona
  end.

End personality.

(** ** main.py *)

Module main.

Record profile : Type := {
  name : string;
  style : string;
  tone : string
}.

Definition PERSONALITY_PROFILES : list (string * profile) :=
  [("cheerful",
    {| name := "Kai";
       style :=
         "playful, witty, full of energy and warmth. Uses emojis and friendly tone.";
       tone := "happy" |});
   ("low",
    {| name := "Luna";
       style := "calm, empathetic, speaks softly and offers reassurance.";
       tone := "sad" |});
   ("stressed",
    {| name := "Astra";
       style := "soothing, gentle, guides through breathing and grounding.";
       tone := "calm" |});
   ("angry",
    {| name := "Nova";
       style := "balanced, composed, uses grounding statements to defuse anger.";
       tone := "neutral" |});
   ("neutral",
    {| name := "Echo";
       style := "friendly and clear, speaks naturally without strong emotion.";
       tone := "neutral" |})].

(** [PERSONALITY_PROFILES["neutral"]]. *)
Definition neutral_profile : profile :=
  {| name := "Echo";
     style := "friendly and clear, speaks naturally without strong emotion.";
     tone := "neutral" |}.

(** [choose_personality]. *)
Definition choose_personality (mood : string) : profile :=
  match Py.dict_get PERSONALITY_PROFILES (Py.str_lower mood) with
  | Some p => p
  | None => neutral_profile
  end.

End main.

(** ** tts_output.py *)

Module tts_output.

(** [speed_map] of [speak]. *)
Definition speed_map : list (string * float) :=
  [("sad", 0.85); ("calm", 0.9); ("neutral", 1.0); ("happy", 1.1);
   ("excited", 1.2); ("angry", 1.15); ("fear", 1.1)].

(** The speed that [speak] asks the speech service for:
    [speed_map.get(tone.lower(), 1.0)]. *)
Definition speed (tone : string) : float :=
  match Py.dict_get speed_map (Py.str_lower tone) with
  | Some s => s
  | None => 1.0
  end.

End tts_output.

(** ** conversation_memory.py and ai_core.py *)

Module conversation_memory.

(** The two columns of a row of [conversations] that the context uses. *)
Record conversation : Type := {
  user_message : string;
  bot_response : string
}.

(** [get_recent_conversations]: the rows of the user as the query
    orders them, cut at [limit].  [ordered] is the result of the SELECT
    with its [ORDER BY timestamp DESC] and without the [LIMIT]; the
    stamps count seconds, and the order among the rows of one second
    is the database's.  A negative [LIMIT] is no limit. *)
Definition get_recent_conversations (ordered : list conversation) (limit : Z)
  : list conversation :=
  if (limit <? 0)%Z then ordered else firstn (Z.to_nat limit) ordered.

(** The loop of [get_context_for_ai] over the rows that
    [get_recent_conversations] returned, last row first: a dict with
    the keys [role] and [content] for every message. *)
Definition context_of (recent : list conversation) : list (list (string * string)) :=
  flat_map
    (fun row =>
       [[("role", "user"); ("content", user_message row)];
        [("role", "assistant"); ("content", bot_response row)]])
    (rev recent).

(** [get_context_for_ai]. *)
Definition get_context_for_ai (ordered : list conversation) (max_messages : Z)
  : list (list (string * string)) :=
  context_of (get_recent_conversations ordered max_messages).

End conversation_memory.

Module ai_core.

Record chat_message : Type := {
  role : string;
  content : string
}.

(** The dict lookup [msg.get(key, default)]. *)
Definition msg_get (msg : list (string * string)) (key default : string) : string :=
  match Py.dict_get msg key with
  | Some v => v
  | None => default
  end.

(** The list [chat_history] that [generate_response] sends to the model:
    the system prompt, the last [CONVERSATION_CONTEXT_LENGTH] messages
    of the history that have a content, and the user's text. *)
Definition chat_history (CONVERSATION_CONTEXT_LENGTH : Z) (prompt : string)
    (history : list (list (string * string))) (user_text : string)
  : list chat_message :=
  {| role := "system"; content := prompt |} ::
  flat_map
    (fun msg =>
       let r := msg_get msg "role" "user" in
       let c := msg_get msg "content" "" in
       if String.eqb c "" then [] else [{| role := r; content := c |}])
    (Py.slice_last CONVERSATION_CONTEXT_LENGTH history)
  ++ [{| role := "user"; content := user_text |}].

(** The persona whose style goes into the prompt:
    [PERSONALITIES.get(personality, PERSONALITIES["neutral"])]. *)
Definition prompt_persona (personality : string) : personality.persona :=
  match Py.dict_get personality.PERSONALITIES personality with
  | Some p => p
  | None =>
      {| personality.style := "balanced, friendly, clear, conversational";
         personality.prompt_tone :=
           "Be natural and approachable. Keep it simple and genuine.";
         personality.voice := "nova" |}
  end.

End ai_core.

(** ** websocket_handler.py *)

Module websocket_handler.

(** What [handle_message] has worked out when it turns to the language
    model: the fused emotion, the mood and the persona. *)
Record selection : Type := {
  sel_emotion : string;
  sel_confidence : float;
  sel_mood : string;
  sel_persona : main.profile
}.

Inductive handled : Type :=
| Rejected (message : string)
| Selected (s : selection).

(** [handle_message], up to the choice of the persona (the stages after
    it talk to the language model, the speech service and the
    database).  [user_id] is the entry of the session in
    [user_sessions], [message] is [data.get('message', '')], [cache] is
    the detector's state and [now] the clock read by [update_mood].
    The call sets its own entry of [processing_flags] and no cancel
    request is taken to arrive in between, so the flag is read as set. *)
Definition handle_message
    (now : Z) (user_id : option Z) (message : string)
    (cache : emotion_detector.state) (mood : mood_manager.mood_state)
  : handled * mood_manager.mood_state :=
  let user_message := Py.strip message in
  if String.eqb user_message "" then (Rejected "Empty message received", mood)
  else
    match emotion_detector.truthy_user user_id with
    | None => (Rejected "User not logged in", mood)
    | Some _ =>
        let (face_emotion, face_confidence) :=
          emotion_detector.get_cached_emotion cache in
        let (voice_emotion, voice_confidence) :=
          voice_tone_analyzer.analyze_voice_tone user_message in
        let (emotion, confidence) :=
          voice_tone_analyzer.combine_emotions
            face_emotion face_confidence voice_emotion voice_confidence in
        let sentiment := "neutral" in
        let (mood_state, _) := mood_manager.update_mood now emotion sentiment mood in
        let combined_mood := mood_manager.combined_mood mood_state in
        let persona := main.choose_personality combined_mood in
        (Selected {| sel_emotion := emotion; sel_confidence := confidence;
                     sel_mood := combined_mood; sel_persona := persona |},
         mood_state)
    end.

End websocket_handler.

(** ** Vocabulary of the statements *)

Module Spec.

Import emotion_calibration emotion_detector.

(** A binary64 number that is not negative and not NaN: a zero, a
    positive finite number, or [+infinity]. *)
Definition sf_nonneg (x : spec_float) : bool :=
  match x with
  | S754_zero _ => true
  | S754_infinity s | S754_finite s _ _ => negb s
  | S754_nan => false
  end.

(** The values recorded for the key [l] in a list of (key, value) pairs,
    in order: for a window, the confidences of the occurrences of [l]. *)
Definition occurrences {V} (l : string) (xs : list (string * V)) : list V :=
  map snd (filter (fun p => String.eqb (fst p) l) xs).

(** The keys of a dict, in insertion order. *)
Definition keys {V} (d : list (string * V)) : list string := map fst d.

(** The entries whose key is not [k], and those whose key is not yet a
    key of [d]. *)
Definition other {V} (k : string) (p : string * V) : bool :=
  negb (String.eqb (fst p) k).

Definition unseen {V W} (d : list (string * W)) (p : string * V) : bool :=
  negb (Py.str_in (fst p) (keys d)).

(** A dict entry with the values that [xs] adds to its key. *)
Definition extend {V} (xs : list (string * V)) (e : string * list V)
  : string * list V :=
  (fst e, snd e ++ occurrences (fst e) xs).

(** What the loop of [max] maintains about the items seen so far: none
    has a greater key than the running maximum [m], and none before [m]
    has an equal key. *)
Definition is_max_of {A} (key : A -> float) (seen : list A) (m : A) : Prop :=
  (forall y, In y seen -> Py.gtb (key y) (key m) = false) /\
  exists pre post, seen = pre ++ m :: post /\
    forall y, In y pre -> (key y =? key m) = false.

(** The mean confidence of [l] across its occurrences in a window. *)
Definition mean_confidence (l : string) (window : list (string * float)) : float :=
  Py.mean (occurrences l window).

(** The labels present in a window. *)
Definition labels (window : list (string * float)) : list string :=
  map fst window.

(** [l] wins the window [window]: it occurs in it, no label of the
    window has a greater mean confidence, and no label seen before the
    first occurrence of [l] has an equal one. *)
Definition wins (l : string) (window : list (string * float)) : Prop :=
  (forall l', In l' (labels window) ->
              Py.gtb (mean_confidence l' window) (mean_confidence l window) = false) /\
  exists before c after,
    window = before ++ (l, c) :: after /\
    ~ In l (labels before) /\
    forall l', In l' (labels before) ->
               (mean_confidence l' window =? mean_confidence l window) = false.

(** The window after a sequence of samples has been appended to it. *)
Definition window_after (window : list (string * float))
    (samples : list (string * float)) : list (string * float) :=
  fold_left deque_append samples window.

(** The average similarity of the current vector to the samples stored
    for every calibrated label, in the order of the dict; [None] when
    a comparison raises. *)
Fixpoint label_averages (np : numpy) (current_vector : embedding)
    (calibration_data : list (string * list embedding))
  : option (list (string * float)) :=
  match calibration_data with
  | [] => Some []
  | (emotion, embeddings) :: rest =>
      match similarities_of np current_vector embeddings,
            label_averages np current_vector rest with
      | Some ss, Some avgs => Some ((emotion, np_mean np ss) :: avgs)
      | _, _ => None
      end
  end.

(** The score of a label in the classifier's output, on the scale 0..1;
    a label without a score counts as 0. *)
Definition score01 (all_emotions : list (string * float)) (l : string) : float :=
  match Py.dict_get all_emotions l with Some s => s | None => 0 end / 100.0.

(** The label sets of the mood reduction. *)
Definition negative_face : list string := ["angry"; "sad"; "fear"].
Definition negative_voice : list string := ["negative"; "sad"].
Definition positive_face : list string := ["happy"; "surprise"].
Definition positive_voice : list string := ["positive"; "joy"].

(** One step of the loop of [match_emotion], on a label average. *)
Definition scan_step (best : option string * float) (la : string * float)
  : option string * float :=
  if Py.gtb (snd la) (snd best) then (Some (fst la), snd la) else best.

(** The samples stored for a user under a label, in the order of the
    table. *)
Definition stored_samples (db : option (list row)) (user_id : Z) (l : string)
  : list embedding :=
  match db with
  | None => []
  | Some rows =>
      occurrences l
        (map (fun r => (row_emotion r, row_embedding r))
             (filter (fun r => Z.eqb (row_user_id r) user_id) rows))
  end.

(** A vector whose entries are all zero ([+0] or [-0]). *)
Definition all_zero (vec : embedding) : Prop :=
  Forall (fun x => (x =? 0) = true) vec.

(** A binary64 number that is a zero or NaN. *)
Definition zero_or_nan (x : spec_float) : bool :=
  match x with
  | S754_zero _ | S754_nan => true
  | _ => false
  end.

(** What adding up products gives at a vector of zeros, in whatever
    order and with or without fusing: the squares of zeros add up to
    zero, and the products of a zero with anything are zeros or NaN
    (with an infinity or NaN), as is their sum. *)
Definition zero_respecting (np : numpy) : Prop :=
  (forall vec, all_zero vec -> (np_norm np vec =? 0) = true) /\
  (forall vec1 vec2 d,
     all_zero vec1 \/ all_zero vec2 ->
     np_dot np vec1 vec2 = Some d -> zero_or_nan (Prim2SF d) = true).

End Spec.

(** ** Concrete inputs used to exercise the statements *)

Module Examples.

Import emotion_calibration emotion_detector.

(** A numpy that adds from the left, from zero, and rounds after every
    operation.  The vectors of the examples below have small integer
    entries: every product and every sum of theirs is exact, so any
    other order of the additions, fused or not, gives the same values. *)
Definition left_dot (vec1 vec2 : embedding) : option float :=
  if Nat.eqb (length vec1) (length vec2) then
    Some (fold_left (fun acc p => acc + fst p * snd p) (combine vec1 vec2) 0)
  else None.

Definition left_norm (vec : embedding) : float :=
  sqrt (fold_left (fun acc x => acc + x * x) vec 0).

Definition left_numpy : numpy :=
  {| np_dot := left_dot; np_norm := left_norm; np_mean := Py.mean |}.

(** The classifier reports [fear] at 75 with [neutral] at 65. *)
Definition fear_analysis : analysis :=
  {| dominant_emotion := "fear";
     all_emotions := [("fear", 75); ("neutral", 65); ("happy", 5)] |}.

(** A world in which the camera delivers a frame, nobody is calibrated
    and the classifier reports [fear_analysis]; the clock reads 100 s at
    the cache check and 101 s at the cache write. *)
Definition fear_world : world :=
  {| time_check := 100; time_write := 101;
     cap_read := Some [];
     calibration_db := Some [];
     represent := fun _ => Some [];
     analyze := fun _ => Some fear_analysis;
     kernels := left_numpy |}.

(** The same world three seconds later. *)
Definition later_world : world :=
  {| time_check := 104; time_write := 105;
     cap_read := Some [];
     calibration_db := Some [];
     represent := fun _ => Some [];
     analyze := fun _ => Some fear_analysis;
     kernels := left_numpy |}.

(** A window in which [happy] and [sad] both average 0.8 and [happy] was
    seen first. *)
Definition tie_window : list (string * float) :=
  [("happy", 0.9); ("sad", 0.8); ("happy", 0.7)].

(** The classifier reports [sad] at 80 (no correction applies). *)
Definition sad_world : world :=
  {| time_check := 100; time_write := 101;
     cap_read := Some [];
     calibration_db := Some [];
     represent := fun _ => Some [];
     analyze := fun _ =>
       Some {| dominant_emotion := "sad"; all_emotions := [("sad", 80)] |};
     kernels := left_numpy |}.

(** User 1 has two [happy] samples and one [sad] sample; the model finds
    one face, with embedding [[1; 0]], in every frame.  The similarities
    are 1 and 0.6 for [happy] and 0 for [sad]. *)
Definition calibrated_db : option (list row) :=
  Some [Row 1 "happy" [1; 0]; Row 1 "sad" [0; 1]; Row 1 "happy" [3; 4];
        Row 2 "angry" [1; 1]].

Definition represent_near_happy (_ : frame) : option (list embedding) :=
  Some [[1; 0]].

(** A user whose only sample points away from the current embedding. *)
Definition opposite_db : option (list row) := Some [Row 1 "happy" [1; 0]].

Definition represent_opposite (_ : frame) : option (list embedding) :=
  Some [[-1; 0]].

Definition tie_state : state :=
  {| recent_emotions := tie_window;
     _emotion_cache := _emotion_cache initial_state |}.

End Examples.

(** ** Vocabulary for the properties of the rest of the code *)

Module Props.

Import emotion_calibration emotion_detector mood_manager.

(** One call of [update_mood]: the clock reading and the two labels. *)
Record mood_call : Type := {
  at_time : Z;
  with_face : string;
  with_voice : string
}.

(** The mood state after a sequence of calls of [update_mood]. *)
Definition run_updates (calls : list mood_call) (st : mood_state) : mood_state :=
  fold_left
    (fun st c => fst (update_mood (at_time c) (with_face c) (with_voice c) st))
    calls st.

(** The stored mood is the reduction of the stored labels. *)
Definition mood_consistent (st : mood_state) : Prop :=
  combined_mood st = combine_moods (face_emotion st) (voice_sentiment st).

(** The moods that [combine_moods] can produce. *)
Definition moods : list string := ["low"; "cheerful"; "neutral"].

(** The labels of the dict [scores] of [analyze_voice_tone]. *)
Definition tone_labels : list string := ["happy"; "sad"; "angry"; "fear"; "neutral"].

(** A pair that the detector may hand out: the label is [neutral], or
    the confidence is not below the threshold, or it is above the 0.7 of
    a personalised match. *)
Definition presentable (cfg : Config) (p : string * float) : Prop :=
  fst p = "neutral" \/
  (snd p <? EMOTION_CONFIDENCE_THRESHOLD cfg) = false \/
  (0.7 <? snd p) = true.

(** The entries of a table that belong to a user. *)
Definition rows_of (db : option (list row)) (user_id : Z) : list row :=
  match db with
  | None => []
  | Some rows => filter (fun r => Z.eqb (row_user_id r) user_id) rows
  end.

(** The last [n] items of a list. *)
Definition lastn {A} (n : nat) (xs : list A) : list A :=
  skipn (length xs - n) xs.

(** A world that differs only in the calibration table and the
    embedding model. *)
Definition with_calibration (w : world) (db : option (list row))
    (r : frame -> option (list embedding)) : world :=
  {| time_check := time_check w; time_write := time_write w;
     cap_read := cap_read w; calibration_db := db; represent := r;
     analyze := analyze w; kernels := kernels w |}.

(** An effect that touches the calibration store. *)
Definition calibration_event (e : event) : bool :=
  match e with
  | HasCalibration _ | MatchEmotion _ => true
  | _ => false
  end.

End Props.

Import voice_tone_analyzer mood_manager emotion_calibration emotion_detector.
Import Spec Examples.

(** * Facts about binary64 comparisons and signs

    The primitive operations are specified by [FloatAxioms] in terms of
    [spec_float]; the comparisons below are read off [SFcompare]. *)

Module FloatFacts.

Ltac split_signs :=
  simpl; try discriminate; try reflexivity;
  repeat match goal with s : bool |- _ => destruct s end;
  simpl; try discriminate; try reflexivity.

Ltac read_compare :=
  change (Pos.compare_cont Eq) with Pos.compare in *;
  repeat match goal with
         | H : Some _ = Some _ |- _ => injection H as H
         end;
  try f_equal;
  try rewrite CompOpp_iff in *; simpl in *;
  rewrite ?Pos.compare_lt_iff, ?Pos.compare_gt_iff, ?Pos.compare_eq_iff in *.

Lemma SFcompare_lt_trans x y z :
  SFcompare x y = Some Lt -> SFcompare y z = Some Lt -> SFcompare x z = Some Lt.
Proof.
  destruct x as [sx|sx| |sx mx ex], y as [sy|sy| |sy my ey], z as [sz|sz| |sz mz ez];
    split_signs; intros H1 H2.
  all: destruct (Z.compare_spec ex ey), (Z.compare_spec ey ez), (Z.compare_spec ex ez);
    try discriminate; try lia; try reflexivity; subst.
  all: read_compare; lia.
Qed.

Lemma SFcompare_lt_eq_trans x y z :
  SFcompare x y = Some Lt -> SFcompare z y = Some Eq -> SFcompare x z = Some Lt.
Proof.
  destruct x as [sx|sx| |sx mx ex], y as [sy|sy| |sy my ey], z as [sz|sz| |sz mz ez];
    split_signs; intros H1 H2.
  all: destruct (Z.compare_spec ex ey), (Z.compare_spec ez ey), (Z.compare_spec ex ez);
    try discriminate; try lia; try reflexivity; subst.
  all: read_compare; lia.
Qed.

Lemma SFcompare_antisym x y :
  SFcompare y x = option_map CompOpp (SFcompare x y).
Proof.
  destruct x as [sx|sx| |sx mx ex], y as [sy|sy| |sy my ey]; split_signs.
  all: change (Pos.compare_cont Eq) with Pos.compare.
  all: rewrite (Z.compare_antisym ex ey), (Pos.compare_antisym mx my).
  all: destruct (ex ?= ey)%Z; simpl; try reflexivity.
  all: destruct (mx ?= my)%positive; reflexivity.
Qed.

(** [<] on floats is transitive, NaN included. *)
Lemma ltb_trans (a b c : float) :
  (a <? b) = true -> (b <? c) = true -> (a <? c) = true.
Proof.
  rewrite !ltb_spec. unfold SFltb.
  destruct (SFcompare (Prim2SF a) (Prim2SF b)) as [[]|] eqn:H1; try discriminate.
  destruct (SFcompare (Prim2SF b) (Prim2SF c)) as [[]|] eqn:H2; try discriminate.
  now rewrite (SFcompare_lt_trans _ _ _ H1 H2).
Qed.

Lemma ltb_eqb_trans (a b c : float) :
  (a <? b) = true -> (c =? b) = true -> (a <? c) = true.
Proof.
  rewrite !ltb_spec, FloatAxioms.eqb_spec. unfold SFltb, SFeqb.
  destruct (SFcompare (Prim2SF a) (Prim2SF b)) as [[]|] eqn:H1; try discriminate.
  destruct (SFcompare (Prim2SF c) (Prim2SF b)) as [[]|] eqn:H2; try discriminate.
  now rewrite (SFcompare_lt_eq_trans _ _ _ H1 H2).
Qed.

Lemma ltb_asym (a b : float) : (a <? b) = true -> (b <? a) = false.
Proof.
  rewrite !ltb_spec. unfold SFltb.
  rewrite (SFcompare_antisym (Prim2SF a) (Prim2SF b)).
  now destruct (SFcompare (Prim2SF a) (Prim2SF b)) as [[]|].
Qed.

Lemma eqb_not_ltb (a b : float) : (a =? b) = true -> (b <? a) = false.
Proof.
  rewrite ltb_spec, FloatAxioms.eqb_spec. unfold SFltb, SFeqb.
  rewrite (SFcompare_antisym (Prim2SF a) (Prim2SF b)).
  now destruct (SFcompare (Prim2SF a) (Prim2SF b)) as [[]|].
Qed.

Lemma eqb_not_ltb_l (a b : float) : (a =? b) = true -> (a <? b) = false.
Proof.
  rewrite ltb_spec, FloatAxioms.eqb_spec. unfold SFltb, SFeqb.
  now destruct (SFcompare (Prim2SF a) (Prim2SF b)) as [[]|].
Qed.

Lemma ltb_irrefl (a : float) : (a <? a) = false.
Proof.
  destruct (a <? a) eqn:H; [|reflexivity].
  now rewrite (ltb_asym _ _ H) in H.
Qed.

Lemma leb_not_ltb (a b : float) : (a <=? b) = true -> (b <? a) = false.
Proof.
  rewrite ltb_spec, leb_spec. unfold SFltb, SFleb.
  rewrite (SFcompare_antisym (Prim2SF a) (Prim2SF b)).
  now destruct (SFcompare (Prim2SF a) (Prim2SF b)) as [[]|].
Qed.

(** Numbers that are not NaN are comparable. *)
Lemma SFcompare_nonneg x y :
  sf_nonneg x = true -> sf_nonneg y = true -> exists c, SFcompare x y = Some c.
Proof.
  destruct x as [sx|sx| |sx mx ex], y as [sy|sy| |sy my ey];
    simpl; try discriminate; eauto.
Qed.

(** A number equal to a nonzero finite one is that number. *)
Lemma SFcompare_eq_finite x s m e :
  SFcompare x (S754_finite s m e) = Some Eq -> x = S754_finite s m e.
Proof.
  destruct x as [sx|sx| |sx mx ex]; simpl; try discriminate.
  - destruct s; discriminate.
  - destruct sx; discriminate.
  - destruct sx, s; try discriminate; intros H; injection H as H;
      change (Pos.compare_cont Eq) with Pos.compare in H;
      destruct (Z.compare_spec ex e); try discriminate; subst;
      try rewrite CompOpp_iff in H; simpl in H;
      apply Pos.compare_eq in H; now subst.
Qed.

(** *** Rounding keeps the sign of a nonnegative mantissa *)

Lemma shr_1_nonneg mrs : (0 <= shr_m mrs)%Z -> (0 <= shr_m (shr_1 mrs))%Z.
Proof.
  destruct mrs as [m r s]; simpl.
  destruct m as [|p|p]; simpl; try lia.
  destruct p; simpl; lia.
Qed.

Lemma iter_shr_1_nonneg p : forall mrs,
  (0 <= shr_m mrs)%Z -> (0 <= shr_m (SpecFloat.iter_pos shr_1 p mrs))%Z.
Proof.
  induction p as [p IH|p IH|]; simpl; intros mrs H.
  - apply IH, IH, shr_1_nonneg, H.
  - apply IH, IH, H.
  - apply shr_1_nonneg, H.
Qed.

Lemma shr_fexp_nonneg m e l :
  (0 <= m)%Z -> (0 <= shr_m (fst (shr_fexp prec emax m e l)))%Z.
Proof.
  intros H. unfold shr_fexp, shr.
  assert (H0 : (0 <= shr_m (shr_record_of_loc m l))%Z).
  { destruct l as [|[]]; simpl; exact H. }
  destruct (fexp prec emax (Zdigits2 m + e) - e)%Z; simpl; try exact H0.
  apply iter_shr_1_nonneg, H0.
Qed.

Lemma round_nearest_even_nonneg m l :
  (0 <= m)%Z -> (0 <= round_nearest_even m l)%Z.
Proof.
  intros H. destruct l as [|[]]; simpl; try lia.
  destruct (Z.even m); lia.
Qed.

Lemma binary_round_aux_nonneg m e l :
  (0 <= m)%Z -> sf_nonneg (binary_round_aux prec emax false m e l) = true.
Proof.
  intros H. unfold binary_round_aux.
  pose proof (shr_fexp_nonneg m e l H) as H1.
  destruct (shr_fexp prec emax m e l) as [mrs' e']. simpl in H1.
  pose proof (shr_fexp_nonneg _ e' loc_Exact
                (round_nearest_even_nonneg _ (loc_of_shr_record mrs') H1)) as H2.
  destruct (shr_fexp prec emax _ e' loc_Exact) as [mrs'' e'']. simpl in H2.
  destruct (shr_m mrs'') as [|p|p]; try reflexivity; try lia.
  destruct (e'' <=? emax - prec)%Z; reflexivity.
Qed.

Lemma SFmul_nonneg x m e :
  sf_nonneg x = true -> sf_nonneg (SF64mul x (S754_finite false m e)) = true.
Proof.
  destruct x as [s|s| |s mx ex]; simpl; try discriminate;
    destruct s; try discriminate; intros _; try reflexivity.
  apply binary_round_aux_nonneg. lia.
Qed.

Lemma SFadd_nonneg x y :
  sf_nonneg x = true -> sf_nonneg y = true -> sf_nonneg (SF64add x y) = true.
Proof.
  destruct x as [sx|sx| |sx mx ex], y as [sy|sy| |sy my ey]; simpl; try discriminate;
    destruct sx; try discriminate; destruct sy; try discriminate; intros _ _;
    try reflexivity.
  unfold binary_normalize. simpl. unfold binary_round.
  destruct (shl_align _ _ _) as [mz ez].
  apply binary_round_aux_nonneg. lia.
Qed.

(** A float that is at least a positive finite constant. *)
Lemma leb_nonneg (k x : float) m e :
  Prim2SF k = S754_finite false m e -> (k <=? x) = true -> sf_nonneg (Prim2SF x) = true.
Proof.
  rewrite leb_spec. intros ->. unfold SFleb.
  destruct (Prim2SF x) as [s|s| |s mx ex]; simpl; try discriminate;
    destruct s; try discriminate; reflexivity.
Qed.

(** The product of such a float with a positive finite constant. *)
Lemma mul_nonneg (x k : float) m e :
  Prim2SF k = S754_finite false m e ->
  sf_nonneg (Prim2SF x) = true -> sf_nonneg (Prim2SF (x * k)) = true.
Proof. intros Hk Hx. rewrite mul_spec, Hk. now apply SFmul_nonneg. Qed.

Lemma add_nonneg (x y : float) :
  sf_nonneg (Prim2SF x) = true -> sf_nonneg (Prim2SF y) = true ->
  sf_nonneg (Prim2SF (x + y)) = true.
Proof. intros Hx Hy. rewrite add_spec. now apply SFadd_nonneg. Qed.

(** Python's [min] does not depend on the order of its arguments when
    one of them is a nonzero constant and the other is not NaN. *)
Lemma min_comm_const (x k : float) s m e :
  Prim2SF k = S754_finite s m e -> sf_nonneg (Prim2SF x) = true ->
  Py.min x k = Py.min k x.
Proof.
  intros Hk Hx. unfold Py.min. rewrite !ltb_spec. unfold SFltb.
  rewrite (SFcompare_antisym (Prim2SF x) (Prim2SF k)).
  destruct (SFcompare (Prim2SF x) (Prim2SF k)) as [[]|] eqn:Hc; simpl; try reflexivity.
  - rewrite Hk in Hc. apply SFcompare_eq_finite in Hc. rewrite <- Hk in Hc.
    now apply Prim2SF_inj.
  - rewrite Hk in Hc. destruct (Prim2SF x) as [sx|sx| |sx mx ex];
      simpl in *; try discriminate.
Qed.

Lemma SFdiv_nonneg x m e :
  sf_nonneg x = true -> sf_nonneg (SF64div x (S754_finite false m e)) = true.
Proof.
  destruct x as [s|s| |s mx ex]; simpl; try discriminate;
    try (destruct s; try discriminate; intros _; reflexivity).
  destruct s; try discriminate. intros _. simpl.
  unfold SFdiv_core_binary.
  set (e' := Z.min _ _). set (sh := (ex - e - e')%Z).
  set (m' := match sh with
             | Zpos _ => Z.shiftl (Zpos mx) sh
             | Z0 => Zpos mx
             | Zneg _ => 0%Z
             end).
  assert (Hm' : (0 <= m')%Z).
  { unfold m'. destruct sh; try lia. apply Z.shiftl_nonneg. lia. }
  pose proof (Z.div_pos m' (Zpos m) Hm' ltac:(lia)) as Hq.
  unfold Z.div in Hq. destruct (Z.div_eucl m' (Zpos m)) as [q r]. simpl in Hq.
  apply binary_round_aux_nonneg. exact Hq.
Qed.

Lemma nonneg_not_ltb_eqb (a b : float) :
  sf_nonneg (Prim2SF a) = true -> sf_nonneg (Prim2SF b) = true ->
  (a <? b) = false -> (b <? a) = false -> (a =? b) = true.
Proof.
  intros Ha Hb. rewrite !ltb_spec, FloatAxioms.eqb_spec. unfold SFltb, SFeqb.
  rewrite (SFcompare_antisym (Prim2SF a) (Prim2SF b)).
  destruct (SFcompare_nonneg _ _ Ha Hb) as [c ->]. now destruct c.
Qed.

Lemma nonneg_not_ltb_leb (a b : float) :
  sf_nonneg (Prim2SF a) = true -> sf_nonneg (Prim2SF b) = true ->
  (a <? b) = false -> (b <=? a) = true.
Proof.
  intros Ha Hb. rewrite ltb_spec, leb_spec. unfold SFltb, SFleb.
  rewrite (SFcompare_antisym (Prim2SF a) (Prim2SF b)).
  destruct (SFcompare_nonneg _ _ Ha Hb) as [c ->]. now destruct c.
Qed.

End FloatFacts.

Import FloatFacts.

(** * The dict built by the smoothing loop and by [get_user_calibration] *)

Section Grouping.

Context {V : Type}.
Implicit Types (d : list (string * list V)) (xs : list (string * V)) (k l : string).

Lemma dict_append_new d k v :
  ~ In k (keys d) -> dict_append d k v = d ++ [(k, [v])].
Proof.
  induction d as [|[k' vs] d IH]; simpl; intros H; [reflexivity|].
  destruct (String.eqb_spec k k') as [->|Hne]; [tauto|].
  rewrite IH by tauto. reflexivity.
Qed.

Lemma dict_append_old d k v :
  In k (keys d) -> NoDup (keys d) ->
  keys (dict_append d k v) = keys d /\
  forall xs, map (extend xs) (dict_append d k v) = map (extend ((k, v) :: xs)) d.
Proof.
  induction d as [|[k' vs] d IH]; simpl; intros Hin Hnd; [tauto|].
  inversion Hnd as [|? ? Hk' Hnd']; subst.
  destruct (String.eqb_spec k k') as [->|Hne].
  - split; [reflexivity|]. intros xs. simpl. f_equal.
    + unfold extend, occurrences. simpl. rewrite String.eqb_refl. simpl.
      now rewrite <- app_assoc.
    + apply map_ext_in. intros [k1 vs1] H1. unfold extend, occurrences. simpl.
      destruct (String.eqb_spec k' k1) as [->|]; [|reflexivity].
      exfalso. apply Hk'. apply (in_map fst) in H1. exact H1.
  - destruct Hin as [Heq|Hin]; [congruence|].
    destruct (IH Hin Hnd') as [Hk Hm]. split.
    + simpl. now rewrite Hk.
    + intros xs. simpl. rewrite Hm. f_equal.
      unfold extend, occurrences. simpl.
      destruct (String.eqb_spec k k') as [->|]; [congruence|reflexivity].
Qed.

Lemma occurrences_unseen d k xs :
  ~ In k (keys d) -> occurrences k (filter (unseen d) xs) = occurrences k xs.
Proof.
  intros Hk. unfold occurrences. f_equal.
  induction xs as [|[k1 v1] xs IH]; simpl; [reflexivity|].
  unfold unseen at 1. simpl.
  destruct (Py.str_in k1 (keys d)) eqn:Hin; simpl.
  - destruct (String.eqb_spec k1 k) as [->|]; [|exact IH].
    exfalso. apply Hk. unfold Py.str_in in Hin. apply existsb_exists in Hin.
    destruct Hin as [y [Hy Heq]]. apply String.eqb_eq in Heq. now subst.
  - destruct (String.eqb k1 k); [f_equal|]; exact IH.
Qed.

Lemma filter_andb {A} (f g : A -> bool) (ys : list A) :
  filter (fun p => f p && g p) ys = filter g (filter f ys).
Proof.
  induction ys as [|y ys IH]; simpl; [reflexivity|].
  destruct (f y); simpl; [destruct (g y)|]; now rewrite IH.
Qed.

Lemma unseen_snoc d k vs xs :
  filter (unseen (d ++ [(k, vs)])) xs =
  filter (unseen [(k, vs)]) (filter (unseen d) xs).
Proof.
  rewrite <- filter_andb. apply filter_ext. intros p.
  unfold unseen, keys, Py.str_in. now rewrite map_app, existsb_app, negb_orb.
Qed.

Lemma str_in_keys d k : Py.str_in k (keys d) = true <-> In k (keys d).
Proof.
  unfold Py.str_in. rewrite existsb_exists. split.
  - intros [y [Hy Heq]]. apply String.eqb_eq in Heq. now subst.
  - intros H. exists k. split; [exact H | apply String.eqb_refl].
Qed.

Lemma NoDup_snoc {A} (ys : list A) (y : A) :
  NoDup ys -> ~ In y ys -> NoDup (ys ++ [y]).
Proof.
  induction 1 as [|z ys Hz Hnd IH]; simpl; intros Hy.
  - constructor; [tauto|constructor].
  - constructor.
    + rewrite in_app_iff. simpl. intuition congruence.
    + apply IH. tauto.
Qed.

Lemma fold_group n : forall xs d,
  length xs <= n -> NoDup (keys d) ->
  fold_left (fun d x => dict_append d (fst x) (snd x)) xs d =
  map (extend xs) d ++ group_by_label (filter (unseen d) xs).
Proof.
  induction n as [|n IH]; intros xs d Hlen Hnd.
  - destruct xs; [|simpl in Hlen; lia]. simpl.
    rewrite app_nil_r. symmetry. rewrite <- (map_id d) at 2. apply map_ext.
    intros [k vs]. unfold extend, occurrences. simpl. now rewrite app_nil_r.
  - destruct xs as [|[k v] xs].
    { simpl. rewrite app_nil_r. symmetry. rewrite <- (map_id d) at 2. apply map_ext.
      intros [k vs]. unfold extend, occurrences. simpl. now rewrite app_nil_r. }
    simpl in Hlen. simpl fold_left.
    destruct (Py.str_in k (keys d)) eqn:Hin.
    + assert (Hk : In k (keys d)) by now apply str_in_keys.
      destruct (dict_append_old d k v Hk Hnd) as [Hkeys Hext].
      rewrite IH; [|lia|now rewrite Hkeys].
      rewrite Hext. f_equal. simpl. unfold unseen at 2. simpl. rewrite Hin. simpl.
      f_equal. apply filter_ext. intros p. unfold unseen. now rewrite Hkeys.
    + assert (Hk : ~ In k (keys d)).
      { intros H. apply str_in_keys in H. congruence. }
      rewrite dict_append_new by exact Hk.
      rewrite IH; [|lia|].
      2:{ unfold keys. rewrite map_app. simpl. now apply NoDup_snoc. }
      rewrite map_app, <- app_assoc. f_equal.
      * apply map_ext_in. intros [k1 vs1] H1. unfold extend, occurrences. simpl.
        destruct (String.eqb_spec k k1) as [->|]; [|reflexivity].
        exfalso. apply Hk. apply (in_map fst) in H1. exact H1.
      * simpl filter. unfold unseen at 2. simpl. rewrite Hin. simpl.
        unfold group_by_label at 2. simpl fold_left.
        rewrite (IH _ [(k, [v])]).
        -- simpl. rewrite unseen_snoc. f_equal.
           unfold extend. simpl. f_equal. f_equal. symmetry.
           now apply occurrences_unseen.
        -- pose proof (filter_length_le (unseen d) xs). lia.
        -- simpl. constructor; [tauto|constructor].
Qed.

(** The grouping, one label at a time. *)
Lemma group_by_label_cons k v xs :
  group_by_label ((k, v) :: xs) =
  (k, v :: occurrences k xs) ::
  group_by_label (filter (other k) xs).
Proof.
  unfold group_by_label at 1. simpl fold_left.
  rewrite (fold_group (length xs) xs [(k, [v])]); [|lia|].
  - simpl. f_equal. f_equal. apply filter_ext. intros p.
    unfold unseen, other, keys, Py.str_in. simpl. now rewrite orb_false_r.
  - simpl. constructor; [tauto|constructor].
Qed.

Lemma occurrences_other k l xs :
  l <> k -> occurrences l (filter (other k) xs) = occurrences l xs.
Proof.
  intros Hne. unfold occurrences. f_equal.
  induction xs as [|[k1 v1] xs IH]; simpl; [reflexivity|].
  unfold other at 1. simpl.
  destruct (String.eqb_spec k1 k) as [->|]; simpl.
  - destruct (String.eqb_spec k l) as [->|]; [congruence|exact IH].
  - now rewrite IH.
Qed.

Lemma labels_other k l xs :
  In l (map fst (filter (other k) xs)) <-> In l (map fst xs) /\ l <> k.
Proof.
  rewrite !in_map_iff. split.
  - intros [p [Hp Hin]]. apply filter_In in Hin. destruct Hin as [Hin Hf].
    split; [now exists p|]. subst l. unfold other in Hf.
    now destruct (String.eqb_spec (fst p) k).
  - intros [[p [Hp Hin]] Hne]. exists p. split; [exact Hp|].
    apply filter_In. split; [exact Hin|]. subst l. unfold other.
    now destruct (String.eqb_spec (fst p) k).
Qed.

Lemma filter_split {A} (f : A -> bool) (ys : list A) : forall a y b,
  filter f ys = a ++ y :: b ->
  exists a' b', ys = a' ++ y :: b' /\ filter f a' = a.
Proof.
  induction ys as [|z ys IH]; simpl; intros a y b H.
  - now destruct a.
  - destruct (f z) eqn:Hz.
    + destruct a as [|a0 a]; simpl in H; injection H as -> H.
      * now exists [], ys.
      * destruct (IH _ _ _ H) as [a' [b' [-> Ha]]].
        exists (a0 :: a'), b'. simpl. now rewrite Hz, Ha.
    + destruct (IH _ _ _ H) as [a' [b' [-> Ha]]].
      exists (z :: a'), b'. simpl. now rewrite Hz.
Qed.

Lemma group_by_label_sound n : forall xs l vs,
  length xs <= n -> In (l, vs) (group_by_label xs) ->
  vs = occurrences l xs /\ In l (map fst xs).
Proof.
  induction n as [|n IH]; intros xs l vs Hlen Hin.
  - destruct xs; [contradiction Hin|simpl in Hlen; lia].
  - destruct xs as [|[k v] xs]; [contradiction Hin|].
    rewrite group_by_label_cons in Hin. simpl in Hlen. destruct Hin as [Heq|Hin].
    + injection Heq as <- <-. split; [|now left].
      unfold occurrences. simpl. now rewrite String.eqb_refl.
    + apply IH in Hin.
      2:{ pose proof (filter_length_le (other k) xs). unfold other in *. lia. }
      destruct Hin as [-> Hl]. apply labels_other in Hl. destruct Hl as [Hl Hne].
      split; [|now right].
      rewrite occurrences_other by exact Hne.
      unfold occurrences. simpl.
      destruct (String.eqb_spec k l); [congruence|reflexivity].
Qed.

Lemma group_by_label_complete n : forall xs l,
  length xs <= n -> In l (map fst xs) ->
  In (l, occurrences l xs) (group_by_label xs).
Proof.
  induction n as [|n IH]; intros xs l Hlen Hin.
  - destruct xs; [contradiction Hin|simpl in Hlen; lia].
  - destruct xs as [|[k v] xs]; [contradiction Hin|].
    rewrite group_by_label_cons. simpl in Hlen.
    destruct (String.eqb_spec k l) as [->|Hne].
    + left. unfold occurrences. simpl. now rewrite String.eqb_refl.
    + right. destruct Hin as [Heq|Hin]; [simpl in Heq; congruence|].
      assert (Hv : occurrences l ((k, v) :: xs) = occurrences l (filter (other k) xs)).
      { rewrite occurrences_other by congruence. unfold occurrences. simpl.
        destruct (String.eqb_spec k l); [congruence|reflexivity]. }
      rewrite Hv. apply IH.
      * pose proof (filter_length_le (other k) xs). lia.
      * apply labels_other. split; [exact Hin|congruence].
Qed.

(** The keys of the dict are in first-seen order: the labels seen in the
    window before the first occurrence of a key are keys before it. *)
Lemma group_by_label_order n : forall xs pre l vs post,
  length xs <= n -> group_by_label xs = pre ++ (l, vs) :: post ->
  exists before c after,
    xs = before ++ (l, c) :: after /\
    ~ In l (map fst before) /\
    forall l', In l' (map fst before) -> In l' (keys pre).
Proof.
  induction n as [|n IH]; intros xs pre l vs post Hlen Hg.
  - destruct xs; [now destruct pre|simpl in Hlen; lia].
  - destruct xs as [|[k v] xs]; [now destruct pre|].
    rewrite group_by_label_cons in Hg. simpl in Hlen.
    destruct pre as [|[k0 vs0] pre]; simpl in Hg; injection Hg as Hk Hvs Hg.
    + subst. exists [], v, xs. simpl. tauto.
    + subst k0. apply IH in Hg.
      2:{ pose proof (filter_length_le (other k) xs). unfold other in *. lia. }
      destruct Hg as [before [c [after [Hsplit [Hfresh Hseen]]]]].
      destruct (filter_split _ _ _ _ _ Hsplit) as [a' [b' [-> Ha]]].
      assert (Hlk : l <> k).
      { assert (Hin : In (l, c) (filter (other k) (a' ++ (l, c) :: b'))).
        { rewrite Hsplit. apply in_elt. }
        apply filter_In in Hin. destruct Hin as [_ Hf]. unfold other in Hf. simpl in Hf.
        now destruct (String.eqb_spec l k). }
      exists ((k, v) :: a'), c, b'. split; [reflexivity|]. split.
      * simpl. intros [Heq|Hin]; [congruence|].
        apply Hfresh. rewrite <- Ha. apply labels_other. tauto.
      * simpl. intros l' [Heq|Hin]; [now left|].
        destruct (String.eqb_spec l' k) as [->|Hne]; [now left|].
        right. apply Hseen. rewrite <- Ha. apply labels_other. tauto.
Qed.

End Grouping.

(** * The loop of [max] *)

Section ArgMax.

Context {A : Type} (key : A -> float).

Lemma max_from_spec (xs : list A) : forall seen m,
  is_max_of key seen m -> is_max_of key (seen ++ xs) (Py.max_from key m xs).
Proof.
  induction xs as [|x xs IH]; intros seen m Hm; simpl.
  - now rewrite app_nil_r.
  - replace (seen ++ x :: xs) with ((seen ++ [x]) ++ xs)
      by now rewrite <- app_assoc.
    apply IH. destruct Hm as [Hmax [pre [post [-> Hpre]]]].
    unfold Py.gtb in *. destruct (key m <? key x) eqn:Hx.
    + split.
      * intros y Hy. unfold Py.gtb. apply in_app_iff in Hy.
        destruct Hy as [Hy|[<-|[]]].
        -- destruct (key x <? key y) eqn:Hxy; [|reflexivity].
           rewrite <- (Hmax y Hy). symmetry. now apply ltb_trans with (key x).
        -- apply ltb_irrefl.
      * exists (pre ++ m :: post), []. split; [reflexivity|].
        intros y Hy. destruct (key y =? key x) eqn:Hyx; [|reflexivity].
        rewrite <- (Hmax y Hy). symmetry. now apply ltb_eqb_trans with (key x).
    + split.
      * intros y Hy. unfold Py.gtb. apply in_app_iff in Hy.
        destruct Hy as [Hy|[<-|[]]].
        -- now apply Hmax.
        -- exact Hx.
      * exists pre, (post ++ [x]). split; [now rewrite <- app_assoc|exact Hpre].
Qed.

Lemma max_by_spec (xs : list A) (r : A) :
  Py.max_by key xs = Some r -> is_max_of key xs r.
Proof.
  destruct xs as [|x xs]; simpl; [discriminate|]. intros H. injection H as <-.
  apply (max_from_spec xs [x] x). split.
  - intros y [<-|[]]. apply ltb_irrefl.
  - exists [], []. split; [reflexivity|]. intros y [].
Qed.

End ArgMax.

(** * Emotion fusion: [combine_emotions] *)

Section Fusion.

Variables (face_emotion voice_emotion : string) (face_conf voice_conf : float).

Lemma strong_not_weak (c : float) : (0.4 <=? c) = true -> (c <? 0.4) = false.
Proof. apply leb_not_ltb. Qed.

Lemma weighted_nonneg (c k : float) m e :
  Prim2SF k = S754_finite false m e ->
  (0.4 <=? c) = true -> sf_nonneg (Prim2SF (c * k)) = true.
Proof.
  intros Hk Hc. apply (mul_nonneg _ _ _ _ Hk).
  exact (leb_nonneg 0.4 c _ _ eq_refl Hc).
Qed.

(** C4.  Weak-signal discard: when a confidence is below 0.4 the
    function returns the other signal, label and confidence exactly as
    they were given.  (When both are below 0.4 the face test comes
    first, so the signal returned is the voice one.) *)
Theorem combine_emotions_weak_signal :
  (face_conf <? 0.4) = true \/ (voice_conf <? 0.4) = true ->
  ((face_conf <? 0.4) = true /\
   combine_emotions face_emotion face_conf voice_emotion voice_conf =
     (voice_emotion, voice_conf)) \/
  ((voice_conf <? 0.4) = true /\
   combine_emotions face_emotion face_conf voice_emotion voice_conf =
     (face_emotion, face_conf)).
Proof.
  unfold combine_emotions. intros H.
  destruct (face_conf <? 0.4) eqn:Hf.
  - left. split; reflexivity.
  - destruct H as [H|H]; [discriminate|]. right. rewrite H. split; reflexivity.
Qed.

(** C5.  Agreement boost: with both confidences at least 0.4 and equal
    labels, the result is the shared label with confidence
    [min(1.0, (face_conf*0.6 + voice_conf*0.4) * 1.2)]. *)
Theorem combine_emotions_agreement :
  (0.4 <=? face_conf) = true -> (0.4 <=? voice_conf) = true ->
  face_emotion = voice_emotion ->
  combine_emotions face_emotion face_conf voice_emotion voice_conf =
    (face_emotion, Py.min 1.0 ((face_conf * 0.6 + voice_conf * 0.4) * 1.2)).
Proof.
  intros Hf Hv Heq. unfold combine_emotions.
  rewrite (strong_not_weak _ Hf), (strong_not_weak _ Hv).
  apply String.eqb_eq in Heq. rewrite Heq. f_equal.
  apply (min_comm_const _ 1.0 _ _ _ eq_refl).
  apply (mul_nonneg _ 1.2 _ _ eq_refl).
  apply add_nonneg.
  - exact (weighted_nonneg face_conf 0.6 _ _ eq_refl Hf).
  - exact (weighted_nonneg voice_conf 0.4 _ _ eq_refl Hv).
Qed.

(** C6.  Disagreement: with both confidences at least 0.4 and different
    labels, the signal with the larger weighted value (face_conf*0.6
    against voice_conf*0.4) is returned with that weighted value as its
    confidence; on equal weighted values the face signal is returned.
    One of the three cases always applies. *)
Theorem combine_emotions_disagreement :
  (0.4 <=? face_conf) = true -> (0.4 <=? voice_conf) = true ->
  face_emotion <> voice_emotion ->
  ((face_conf * 0.6 <? voice_conf * 0.4) = true ->
     combine_emotions face_emotion face_conf voice_emotion voice_conf =
       (voice_emotion, voice_conf * 0.4)) /\
  ((voice_conf * 0.4 <? face_conf * 0.6) = true ->
     combine_emotions face_emotion face_conf voice_emotion voice_conf =
       (face_emotion, face_conf * 0.6)) /\
  ((face_conf * 0.6 =? voice_conf * 0.4) = true ->
     combine_emotions face_emotion face_conf voice_emotion voice_conf =
       (face_emotion, face_conf * 0.6)) /\
  ((face_conf * 0.6 <? voice_conf * 0.4) = true \/
   (voice_conf * 0.4 <? face_conf * 0.6) = true \/
   (face_conf * 0.6 =? voice_conf * 0.4) = true).
Proof.
  intros Hf Hv Hne. unfold combine_emotions, Py.gtb, face_weight, voice_weight.
  rewrite (strong_not_weak _ Hf), (strong_not_weak _ Hv).
  apply String.eqb_neq in Hne. rewrite Hne.
  repeat split.
  - intros ->. reflexivity.
  - intros H. now rewrite (ltb_asym _ _ H).
  - intros H. now rewrite (eqb_not_ltb_l _ _ H).
  - pose proof (weighted_nonneg face_conf 0.6 _ _ eq_refl Hf) as Pf.
    pose proof (weighted_nonneg voice_conf 0.4 _ _ eq_refl Hv) as Pv.
    destruct (SFcompare_nonneg _ _ Pf Pv) as [c Hc].
    rewrite !ltb_spec, FloatAxioms.eqb_spec. unfold SFltb, SFeqb.
    rewrite (SFcompare_antisym (Prim2SF (face_conf * 0.6))
               (Prim2SF (voice_conf * 0.4))).
    rewrite Hc. destruct c; simpl; auto.
Qed.

(** C10.  Both signals weak: the voice signal is returned unchanged,
    the face test being the first one. *)
Theorem combine_emotions_both_weak :
  (face_conf <? 0.4) = true -> (voice_conf <? 0.4) = true ->
  combine_emotions face_emotion face_conf voice_emotion voice_conf =
    (voice_emotion, voice_conf).
Proof.
  intros Hf _. unfold combine_emotions. now rewrite Hf.
Qed.

End Fusion.

(** The example of the specification: a weak [sad] face against a strong
    [happy] voice. *)
Lemma combine_emotions_weak_signal_witness :
  ((0.3 <? 0.4) = true \/ (0.9 <? 0.4) = true) /\
  (((0.3 <? 0.4) = true /\
    combine_emotions "sad" 0.3 "happy" 0.9 = ("happy", 0.9)) \/
   ((0.9 <? 0.4) = true /\
    combine_emotions "sad" 0.3 "happy" 0.9 = ("sad", 0.3))).
Proof.
  split.
  - left. reflexivity.
  - apply combine_emotions_weak_signal. left. reflexivity.
Defined.

(** The example of the specification: two [happy] signals at 0.8 fuse to
    [happy] at 0.96. *)
Lemma combine_emotions_agreement_witness :
  ((0.4 <=? 0.8) = true /\ "happy" = "happy") /\
  combine_emotions "happy" 0.8 "happy" 0.8 = ("happy", 0.96).
Proof.
  split.
  - split; reflexivity.
  - exact (eq_trans
             (combine_emotions_agreement "happy" "happy" 0.8 0.8 eq_refl eq_refl eq_refl)
             eq_refl).
Defined.

Lemma combine_emotions_disagreement_witness :
  ((0.4 <=? 0.4) = true /\ (0.4 <=? 0.9) = true /\ "sad" <> "happy") /\
  combine_emotions "sad" 0.4 "happy" 0.9 = ("happy", 0.9 * 0.4).
Proof.
  split.
  - repeat split; try reflexivity. discriminate.
  - apply (combine_emotions_disagreement "sad" "happy" 0.4 0.9); try reflexivity.
    discriminate.
Defined.

Lemma combine_emotions_both_weak_witness :
  ((0.3 <? 0.4) = true /\ (0.2 <? 0.4) = true) /\
  combine_emotions "sad" 0.3 "happy" 0.2 = ("happy", 0.2).
Proof.
  split.
  - split; reflexivity.
  - apply combine_emotions_both_weak; reflexivity.
Defined.

(** * Mood reduction: [combine_moods] *)

Section Mood.

Lemma str_in_In (x : string) (xs : list string) :
  Py.str_in x xs = true <-> In x xs.
Proof.
  unfold Py.str_in. rewrite existsb_exists. split.
  - intros [y [Hy Heq]]. apply String.eqb_eq in Heq. now subst.
  - intros H. exists x. split; [exact H | apply String.eqb_refl].
Qed.

Lemma str_in_not_In (x : string) (xs : list string) :
  Py.str_in x xs = false <-> ~ In x xs.
Proof.
  rewrite <- str_in_In. destruct (Py.str_in x xs); split; congruence.
Qed.

(** C7.  Priority of the mood reduction: a negative face label or voice
    sentiment gives [low]; otherwise a positive face label or voice
    sentiment gives [cheerful]; otherwise the mood is [neutral]. *)
Theorem combine_moods_priority (face_emotion voice_sentiment : string) :
  (In face_emotion negative_face \/ In voice_sentiment negative_voice ->
     combine_moods face_emotion voice_sentiment = "low") /\
  (~ (In face_emotion negative_face \/ In voice_sentiment negative_voice) ->
   In face_emotion positive_face \/ In voice_sentiment positive_voice ->
     combine_moods face_emotion voice_sentiment = "cheerful") /\
  (~ (In face_emotion negative_face \/ In voice_sentiment negative_voice) ->
   ~ (In face_emotion positive_face \/ In voice_sentiment positive_voice) ->
     combine_moods face_emotion voice_sentiment = "neutral").
Proof.
  unfold combine_moods, negative_face, negative_voice, positive_face, positive_voice.
  rewrite <- !str_in_In.
  destruct (Py.str_in face_emotion _), (Py.str_in voice_sentiment _),
           (Py.str_in face_emotion _), (Py.str_in voice_sentiment _);
    simpl; repeat split; intros; try reflexivity;
    intuition congruence.
Qed.

End Mood.

(** The example of the specification: an [angry] face with a [neutral]
    voice gives the mood [low]. *)
Lemma combine_moods_priority_witness :
  (In "angry" negative_face \/ In "neutral" negative_voice) /\
  combine_moods "angry" "neutral" = "low".
Proof.
  assert (H : In "angry" negative_face \/ In "neutral" negative_voice).
  { left. left. reflexivity. }
  split.
  - exact H.
  - exact (proj1 (combine_moods_priority "angry" "neutral") H).
Defined.

(** * The detector: [detect_emotion_sync] *)

Section Detector.

Variable cfg : Config.

(** A call that does not bypass a fresh cache returns the cached pair,
    touches neither the camera nor a model, and leaves the globals as
    they were. *)
Lemma cache_hit (w : world) (user_id : option Z) (st : state) :
  cache_fresh cfg (time_check w) (_emotion_cache st) = true ->
  detect_emotion_sync cfg w user_id false st =
  {| returned := Some (get_cached_emotion st); final := st; trace := [] |}.
Proof.
  intros H. unfold detect_emotion_sync. rewrite H. reflexivity.
Qed.

(** A call that wrote the cache returns what it wrote, stamped with the
    time it read for the write. *)
Lemma cache_written
    (w : world) (user_id : option Z) (bypass_cache : bool) (st : state) :
  In CacheWrite (trace (detect_emotion_sync cfg w user_id bypass_cache st)) ->
  returned (detect_emotion_sync cfg w user_id bypass_cache st) =
    Some (get_cached_emotion
            (final (detect_emotion_sync cfg w user_id bypass_cache st))) /\
  timestamp
    (_emotion_cache (final (detect_emotion_sync cfg w user_id bypass_cache st))) =
    time_write w.
Proof.
  assert (Hevs : forall fr, ~ In CacheWrite (snd (personalized w user_id fr))).
  { intros fr. unfold personalized.
    destruct (truthy_user user_id) as [u|]; [|simpl; tauto].
    destruct (has_calibration (calibration_db w) u); [|simpl; intuition discriminate].
    destruct (match_emotion (kernels w) (calibration_db w) (represent w) u fr) as [[e|] c];
      [destruct (negb (e =? "")%string && Py.gtb c 0.7)|];
      simpl; intuition discriminate. }
  unfold detect_emotion_sync.
  destruct (negb bypass_cache && cache_fresh cfg (time_check w) (_emotion_cache st));
    [simpl; tauto|].
  destruct (cap_read w) as [fr|]; [|simpl; intuition discriminate].
  specialize (Hevs fr).
  destruct (personalized w user_id fr) as [[[e c]|] evs]; simpl in Hevs.
  - intros _. split; reflexivity.
  - destruct (classify w fr) as [sample|].
    + destruct (smooth (EMOTION_CONFIDENCE_THRESHOLD cfg)
                  (deque_append (recent_emotions st) sample)) as [[se ac]|].
      * intros _. split; reflexivity.
      * simpl. rewrite in_app_iff. simpl. intuition discriminate.
    + simpl. rewrite in_app_iff. simpl. intuition discriminate.
Qed.

(** C3.  Cache TTL: when a call has written the cache and a second call,
    not bypassing the cache, reads the clock less than the TTL after the
    written timestamp, the second call returns exactly the pair of the
    first, performs no capture, calibration lookup or classification,
    and leaves the cache and the window unchanged. *)
Theorem cache_ttl
    (w1 w2 : world) (user1 user2 : option Z) (bypass1 : bool) (st : state) :
  In CacheWrite (trace (detect_emotion_sync cfg w1 user1 bypass1 st)) ->
  (time_check w2 - time_write w1 <? EMOTION_CACHE_TTL cfg) = true ->
  returned (detect_emotion_sync cfg w2 user2 false
              (final (detect_emotion_sync cfg w1 user1 bypass1 st))) =
    returned (detect_emotion_sync cfg w1 user1 bypass1 st) /\
  trace (detect_emotion_sync cfg w2 user2 false
           (final (detect_emotion_sync cfg w1 user1 bypass1 st))) = [] /\
  final (detect_emotion_sync cfg w2 user2 false
           (final (detect_emotion_sync cfg w1 user1 bypass1 st))) =
    final (detect_emotion_sync cfg w1 user1 bypass1 st).
Proof.
  intros Hw Hfresh.
  destruct (cache_written w1 user1 bypass1 st Hw) as [Hret Hts].
  rewrite cache_hit.
  - simpl. rewrite Hret. repeat split.
  - unfold cache_fresh. now rewrite Hts.
Qed.

End Detector.

Section Smoothing.

Variable cfg : Config.

Lemma deque_append_nonempty {A} (q : list A) (x : A) : deque_append q x <> [].
Proof.
  unfold deque_append. destruct (Nat.eqb (length q) maxlen);
    intros H; apply app_eq_nil in H; destruct H; discriminate.
Qed.

(** The deque never grows beyond its bound. *)
Lemma deque_append_bounded {A} (q : list A) (x : A) :
  (length q <= maxlen)%nat -> (length (deque_append q x) <= maxlen)%nat.
Proof.
  unfold deque_append. destruct (Nat.eqb_spec (length q) maxlen) as [He|Hne];
    rewrite length_app; simpl; intros H.
  - destruct q; simpl in *; [discriminate|lia].
  - lia.
Qed.

Lemma group_by_label_nonempty {V} (xs : list (string * V)) :
  xs <> [] -> group_by_label xs <> [].
Proof.
  destruct xs as [|[k v] xs]; [congruence|]. intros _.
  rewrite group_by_label_cons. discriminate.
Qed.

(** The smoothing step on a window that is not empty: the label that
    wins the window, unless its mean is below the threshold. *)
Lemma smooth_spec (threshold : float) (window : list (string * float)) :
  window <> [] ->
  exists winner,
    wins winner window /\
    smooth threshold window =
      Some (if mean_confidence winner window <? threshold then "neutral" else winner,
            mean_confidence winner window).
Proof.
  intros Hne. unfold smooth, emotion_scores.
  destruct (Py.max_by (fun x => Py.mean (snd x)) (group_by_label window))
    as [[l vs]|] eqn:Hmax.
  2:{ apply group_by_label_nonempty in Hne.
      destruct (group_by_label window); [congruence|discriminate]. }
  apply max_by_spec in Hmax. destruct Hmax as [Hall [pre [post [Hsplit Hpre]]]].
  assert (Hin : In (l, vs) (group_by_label window)).
  { rewrite Hsplit. apply in_elt. }
  destruct (group_by_label_sound _ _ _ _ (le_n _) Hin) as [-> Hl].
  exists l. split; [split|].
  - intros l' Hl'.
    apply (group_by_label_complete _ _ _ (le_n _)) in Hl'.
    exact (Hall _ Hl').
  - destruct (group_by_label_order _ _ _ _ _ _ (le_n _) Hsplit)
      as [before [c [after [Hw [Hfresh Hseen]]]]].
    exists before, c, after. split; [exact Hw|]. split; [exact Hfresh|].
    intros l' Hl'. apply Hseen in Hl'. unfold keys in Hl'.
    apply in_map_iff in Hl'. destruct Hl' as [[k vs'] [Hk Hin']]. simpl in Hk. subst k.
    assert (Hg : In (l', vs') (group_by_label window)).
    { rewrite Hsplit. apply in_or_app. now left. }
    destruct (group_by_label_sound _ _ _ _ (le_n _) Hg) as [-> _].
    exact (Hpre _ Hin').
  - simpl. fold (mean_confidence l window).
    now destruct (mean_confidence l window <? threshold).
Qed.

Lemma sum_nonneg (xs : list float) :
  Forall (fun c => (0 <=? c) = true) xs ->
  forall acc, sf_nonneg (Prim2SF acc) = true ->
  sf_nonneg (Prim2SF (fold_left PrimFloat.add xs acc)) = true.
Proof.
  induction 1 as [|c xs Hc Hxs IH]; simpl; intros acc Hacc; [exact Hacc|].
  apply IH. apply add_nonneg; [exact Hacc|].
  rewrite leb_spec in Hc. change (Prim2SF 0) with (S754_zero false) in Hc.
  unfold SFleb in Hc. destruct (Prim2SF c) as [s|s| |s mc ec]; simpl in *;
    try reflexivity; try discriminate; destruct s; try discriminate; reflexivity.
Qed.

Lemma len_finite (xs : list float) :
  (1 <= length xs <= maxlen)%nat ->
  exists m e, Prim2SF (Py.len xs) = S754_finite false m e.
Proof.
  unfold Py.len, maxlen. intros H.
  remember (length xs) as n.
  do 9 (destruct n as [|n]; [try lia; try (do 2 eexists; vm_compute; reflexivity)|]).
  lia.
Qed.

Lemma mean_nonneg (xs : list float) :
  (1 <= length xs <= maxlen)%nat ->
  Forall (fun c => (0 <=? c) = true) xs ->
  sf_nonneg (Prim2SF (Py.mean xs)) = true.
Proof.
  intros Hlen Hxs. unfold Py.mean. rewrite div_spec.
  destruct (len_finite xs Hlen) as [m [e ->]].
  apply SFdiv_nonneg. apply sum_nonneg; [exact Hxs|reflexivity].
Qed.

Lemma wins_occurs l window : wins l window -> In l (labels window).
Proof.
  intros [_ [before [c [after [-> _]]]]]. unfold labels.
  rewrite map_app. apply in_or_app. right. now left.
Qed.

(** Among means that are numbers, the winner of a window is unique. *)
Lemma wins_unique l l' window :
  wins l window -> wins l' window ->
  sf_nonneg (Prim2SF (mean_confidence l window)) = true ->
  sf_nonneg (Prim2SF (mean_confidence l' window)) = true ->
  l = l'.
Proof.
  intros Hl Hl' Hn Hn'.
  pose proof (wins_occurs _ _ Hl) as Hin. pose proof (wins_occurs _ _ Hl') as Hin'.
  destruct Hl as [Hmax [b [c [a [Hw [Hfresh Hties]]]]]].
  destruct Hl' as [Hmax' [b' [c' [a' [Hw' [Hfresh' Hties']]]]]].
  assert (Heq : (mean_confidence l window =? mean_confidence l' window) = true).
  { apply nonneg_not_ltb_eqb; try assumption.
    - exact (Hmax _ Hin').
    - exact (Hmax' _ Hin). }
  assert (Heq' : (mean_confidence l' window =? mean_confidence l window) = true).
  { apply nonneg_not_ltb_eqb; try assumption.
    - exact (Hmax' _ Hin).
    - exact (Hmax _ Hin'). }
  rewrite Hw in Hw'. apply app_eq_app in Hw'.
  destruct Hw' as [mid [[Hb Ha]|[Hb Ha]]].
  - destruct mid as [|p mid]; simpl in Ha.
    + now injection Ha.
    + injection Ha as <- _. exfalso.
      assert (Hlb : In l' (labels b)).
      { rewrite Hb. unfold labels. rewrite map_app. apply in_or_app. right. now left. }
      rewrite (Hties _ Hlb) in Heq'. discriminate.
  - destruct mid as [|p mid]; simpl in Ha.
    + now injection Ha.
    + injection Ha as <- _. exfalso.
      assert (Hlb : In l (labels b')).
      { rewrite Hb. unfold labels. rewrite map_app. apply in_or_app. right. now left. }
      rewrite (Hties' _ Hlb) in Heq. discriminate.
Qed.

(** In a window within the bound whose confidences are not negative,
    every label's mean is a number that is not negative. *)
Lemma window_means_nonneg (window : list (string * float)) (l : string) :
  (length window <= maxlen)%nat ->
  Forall (fun p => (0 <=? snd p) = true) window ->
  In l (labels window) ->
  sf_nonneg (Prim2SF (mean_confidence l window)) = true.
Proof.
  intros Hlen Hall Hin. unfold mean_confidence. apply mean_nonneg.
  - unfold occurrences. rewrite length_map.
    pose proof (filter_length_le (fun p => String.eqb (fst p) l) window) as Hle.
    split; [|lia].
    unfold labels in Hin. apply in_map_iff in Hin. destruct Hin as [p [Hp Hin]].
    assert (Hf : In p (filter (fun p => String.eqb (fst p) l) window)).
    { apply filter_In. split; [exact Hin|]. subst l. apply String.eqb_refl. }
    destruct (filter _ window); [contradiction Hf|simpl; lia].
  - unfold occurrences. apply Forall_map. apply Forall_forall.
    intros p Hp. apply filter_In in Hp. destruct Hp as [Hp _].
    rewrite Forall_forall in Hall. now apply Hall.
Qed.

(** Every sequence of samples appended to the empty deque leaves a
    window within the bound, and after the last sample the smoothing
    step emits the winner of that window. *)
Lemma window_after_snoc (window samples : list (string * float)) (x : string * float) :
  window_after window (samples ++ [x]) = deque_append (window_after window samples) x.
Proof. unfold window_after. now rewrite fold_left_app. Qed.

Lemma window_after_bounded (samples : list (string * float)) :
  forall window,
    (length window <= maxlen)%nat ->
    (length (window_after window samples) <= maxlen)%nat.
Proof.
  induction samples as [|x samples IH]; simpl; intros window H; [exact H|].
  apply IH. now apply deque_append_bounded.
Qed.

Lemma smooth_after_samples
    (threshold : float) (samples : list (string * float)) (x : string * float) :
  (length (window_after [] (samples ++ [x])) <= maxlen)%nat /\
  exists winner,
    wins winner (window_after [] (samples ++ [x])) /\
    smooth threshold (window_after [] (samples ++ [x])) =
      Some (if mean_confidence winner (window_after [] (samples ++ [x])) <? threshold
            then "neutral" else winner,
            mean_confidence winner (window_after [] (samples ++ [x]))).
Proof.
  split.
  - apply window_after_bounded. simpl. unfold maxlen. lia.
  - apply smooth_spec. rewrite window_after_snoc. apply deque_append_nonempty.
Qed.

(** No exception escapes [detect_emotion_sync]: the [max] of the
    smoothing step always has an item to look at. *)
Lemma detect_emotion_sync_returns
    (w : world) (user_id : option Z) (bypass_cache : bool) (st : state) :
  returned (detect_emotion_sync cfg w user_id bypass_cache st) <> None.
Proof.
  unfold detect_emotion_sync.
  destruct (negb bypass_cache && cache_fresh cfg (time_check w) (_emotion_cache st));
    [discriminate|].
  destruct (cap_read w) as [fr|]; [|discriminate].
  destruct (personalized w user_id fr) as [[[e c]|] evs]; [discriminate|].
  destruct (classify w fr) as [sample|]; [|discriminate].
  destruct (smooth_spec (EMOTION_CONFIDENCE_THRESHOLD cfg)
              (deque_append (recent_emotions st) sample)
              (deque_append_nonempty _ _)) as [winner [_ ->]].
  discriminate.
Qed.

(** C1.  Smoothing postcondition: whenever a call classifies a sample,
    the sample is appended to the bounded window and the call emits the
    label that wins the new window -- no label of the window has a
    greater mean confidence, and no label seen earlier has an equal one
    -- together with that mean; when the mean is below the configured
    threshold the emitted label is [neutral] instead.  In a window
    within its bound whose confidences are not negative the means are
    numbers, so the winner's mean is at least every label's mean and the
    winner is the only label that wins. *)
Theorem smoothing_postcondition
    (w : world) (user_id : option Z) (bypass_cache : bool) (st : state)
    (fr : frame) (sample : string * float) :
  negb bypass_cache && cache_fresh cfg (time_check w) (_emotion_cache st) = false ->
  cap_read w = Some fr ->
  fst (personalized w user_id fr) = None ->
  classify w fr = Some sample ->
  exists winner,
    wins winner (deque_append (recent_emotions st) sample) /\
    returned (detect_emotion_sync cfg w user_id bypass_cache st) =
      Some (if mean_confidence winner (deque_append (recent_emotions st) sample)
               <? EMOTION_CONFIDENCE_THRESHOLD cfg
            then "neutral" else winner,
            mean_confidence winner (deque_append (recent_emotions st) sample)) /\
    recent_emotions (final (detect_emotion_sync cfg w user_id bypass_cache st)) =
      deque_append (recent_emotions st) sample /\
    ((length (recent_emotions st) <= maxlen)%nat ->
     Forall (fun p => (0 <=? snd p) = true)
            (deque_append (recent_emotions st) sample) ->
     forall l, In l (labels (deque_append (recent_emotions st) sample)) ->
       (mean_confidence l (deque_append (recent_emotions st) sample)
          <=? mean_confidence winner (deque_append (recent_emotions st) sample))
         = true /\
       (wins l (deque_append (recent_emotions st) sample) -> l = winner)).
Proof.
  intros Hmiss Hcap Hpers Hcls.
  destruct (smooth_spec (EMOTION_CONFIDENCE_THRESHOLD cfg)
              (deque_append (recent_emotions st) sample)
              (deque_append_nonempty _ _)) as [winner [Hwins Hsmooth]].
  exists winner. split; [exact Hwins|].
  unfold detect_emotion_sync. rewrite Hmiss, Hcap.
  destruct (personalized w user_id fr) as [[p|] evs]; [discriminate|].
  rewrite Hcls, Hsmooth. split; [reflexivity|]. split; [reflexivity|].
  intros Hlen Hall l Hl.
  pose proof (deque_append_bounded _ sample Hlen) as Hbound.
  pose proof (window_means_nonneg _ l Hbound Hall Hl) as Hn.
  pose proof (window_means_nonneg _ winner Hbound Hall (wins_occurs _ _ Hwins)) as Hnw.
  split.
  - apply nonneg_not_ltb_leb; try assumption. exact (proj1 Hwins _ Hl).
  - intros Hwl. exact (wins_unique _ _ _ Hwl Hwins Hn Hnw).
Qed.

End Smoothing.

Section BiasCorrection.

Variable cfg : Config.

(** The correction itself: a weak [fear] or [sad] gives way to [neutral]
    when the neutral score is above the raw confidence minus 0.15, and
    otherwise to [happy] when the happy score is. *)
Lemma bias_correction_spec (emotion : string) (confidence : float)
    (scores : list (string * float)) :
  In emotion ["fear"; "sad"] -> (confidence <? 0.80) = true ->
  (Py.gtb (score01 scores "neutral") (confidence - 0.15) = true ->
     bias_correction emotion confidence scores =
       ("neutral", score01 scores "neutral")) /\
  (Py.gtb (score01 scores "neutral") (confidence - 0.15) = false ->
   Py.gtb (score01 scores "happy") (confidence - 0.15) = true ->
     bias_correction emotion confidence scores = ("happy", score01 scores "happy")).
Proof.
  intros Hin Hlow. unfold bias_correction, score01.
  apply str_in_In in Hin. rewrite Hin, Hlow. simpl.
  split.
  - intros ->. reflexivity.
  - intros -> ->. reflexivity.
Qed.

(** C2.  Bias correction: when the classifier's dominant label is [fear]
    or [sad] with confidence below 0.80 and the neutral score, or else
    the happy score, is within 0.15 of that confidence, the sample that
    [detect_emotion_sync] takes from the classifier and appends to the
    window carries the alternative label with the alternative's own
    score as confidence. *)
Theorem bias_correction_override
    (w : world) (user_id : option Z) (bypass_cache : bool) (st : state)
    (fr : frame) (result : analysis) (score : float) :
  negb bypass_cache && cache_fresh cfg (time_check w) (_emotion_cache st) = false ->
  cap_read w = Some fr ->
  fst (personalized w user_id fr) = None ->
  analyze w fr = Some result ->
  In (dominant_emotion result) ["fear"; "sad"] ->
  Py.dict_get (all_emotions result) (dominant_emotion result) = Some score ->
  (score / 100 <? 0.80) = true ->
  (Py.gtb (score01 (all_emotions result) "neutral") (score / 100 - 0.15) = true ->
     classify w fr = Some ("neutral", score01 (all_emotions result) "neutral") /\
     recent_emotions (final (detect_emotion_sync cfg w user_id bypass_cache st)) =
       deque_append (recent_emotions st)
         ("neutral", score01 (all_emotions result) "neutral")) /\
  (Py.gtb (score01 (all_emotions result) "neutral") (score / 100 - 0.15) = false ->
   Py.gtb (score01 (all_emotions result) "happy") (score / 100 - 0.15) = true ->
     classify w fr = Some ("happy", score01 (all_emotions result) "happy") /\
     recent_emotions (final (detect_emotion_sync cfg w user_id bypass_cache st)) =
       deque_append (recent_emotions st)
         ("happy", score01 (all_emotions result) "happy")).
Proof.
  intros Hmiss Hcap Hpers Han Hdom Hscore Hlow.
  destruct (bias_correction_spec _ _ (all_emotions result) Hdom Hlow) as [Hn Hh].
  assert (Hcls : classify w fr =
                 Some (bias_correction (dominant_emotion result) (score / 100)
                         (all_emotions result))).
  { unfold classify. now rewrite Han, Hscore. }
  assert (Hwin : forall sample, classify w fr = Some sample ->
            recent_emotions (final (detect_emotion_sync cfg w user_id bypass_cache st)) =
            deque_append (recent_emotions st) sample).
  { intros sample Hs. unfold detect_emotion_sync. rewrite Hmiss, Hcap.
    destruct (personalized w user_id fr) as [[p|] evs]; [discriminate|].
    rewrite Hs.
    now destruct (smooth (EMOTION_CONFIDENCE_THRESHOLD cfg)
                    (deque_append (recent_emotions st) sample)) as [[se ac]|]. }
  split.
  - intros H. rewrite (Hn H) in Hcls. split; [exact Hcls|now apply Hwin].
  - intros H1 H2. rewrite (Hh H1 H2) in Hcls. split; [exact Hcls|now apply Hwin].
Qed.

End BiasCorrection.

(** A first call classifies [fear] at 0.75 against [neutral] at 0.65 and
    writes the cache at 101 s; a second call reads the clock at 104 s,
    within the default 8 s, and repeats the pair without any effect. *)
Lemma cache_ttl_witness :
  (In CacheWrite
      (trace
         (detect_emotion_sync default_config
            fear_world None false initial_state)) /\
   (104 - 101 <? 8) = true) /\
  returned
    (detect_emotion_sync default_config
       later_world None false
       (final
          (detect_emotion_sync default_config
             fear_world None false initial_state))) =
    Some ("neutral", 0.65) /\
  trace
    (detect_emotion_sync default_config
       later_world None false
       (final
          (detect_emotion_sync default_config
             fear_world None false initial_state))) = [].
Proof.
  assert (Hw : In CacheWrite
      (trace
         (detect_emotion_sync default_config
            fear_world None false initial_state))).
  { right. right. left. reflexivity. }
  split; [split; [exact Hw|reflexivity]|].
  destruct (cache_ttl default_config
              fear_world later_world None None false
              initial_state Hw eq_refl) as [Hret [Htrace _]].
  split; [exact Hret|exact Htrace].
Defined.

(** The example of the specification: raw [fear] at 0.75 with [neutral]
    at 0.65 (above 0.75 - 0.15) is appended as [neutral] at 0.65, which
    is also what the call emits from an empty window. *)
Lemma bias_correction_override_witness :
  (In "fear" ["fear"; "sad"] /\ (75 / 100 <? 0.80) = true /\
   Py.gtb (65 / 100) (75 / 100 - 0.15) = true) /\
  (classify fear_world [] = Some ("neutral", 0.65) /\
   recent_emotions
     (final
        (detect_emotion_sync default_config
           fear_world None false initial_state)) =
     [("neutral", 0.65)]) /\
  returned
    (detect_emotion_sync default_config
       fear_world None false initial_state) =
    Some ("neutral", 0.65).
Proof.
  split; [repeat split; left; reflexivity|].
  split; [|reflexivity].
  exact (proj1 (bias_correction_override default_config
                  fear_world None false initial_state
                  [] fear_analysis 75
                  eq_refl eq_refl eq_refl eq_refl (or_introl eq_refl) eq_refl eq_refl)
               eq_refl).
Defined.

(** A window in which [happy] and [sad] both reach the mean 0.8 after a
    [sad] sample at 0.8 is appended: the call emits a winner of the new
    window, and the emitted pair is [happy], seen first, at 0.8. *)
Lemma smoothing_postcondition_witness :
  classify sad_world [] = Some ("sad", 0.8) /\
  (exists winner,
     wins winner (tie_window ++ [("sad", 0.8)]) /\
     returned
       (detect_emotion_sync default_config
          sad_world None false tie_state) =
       Some (if mean_confidence winner (tie_window ++ [("sad", 0.8)])
                <? 0.70
             then "neutral" else winner,
             mean_confidence winner (tie_window ++ [("sad", 0.8)])) /\
     recent_emotions
       (final
          (detect_emotion_sync default_config
             sad_world None false tie_state)) =
       tie_window ++ [("sad", 0.8)] /\
     (wins "sad" (tie_window ++ [("sad", 0.8)]) -> "sad" = winner)) /\
  returned
    (detect_emotion_sync default_config
       sad_world None false tie_state) = Some ("happy", 0.8).
Proof.
  split; [reflexivity|]. split; [|reflexivity].
  destruct (smoothing_postcondition default_config
              sad_world None false tie_state [] ("sad", 0.8)
              eq_refl eq_refl eq_refl eq_refl)
    as [winner [Hwins [Hret [Hwin Huniq]]]].
  exists winner.
  split; [exact Hwins|]. split; [exact Hret|]. split; [exact Hwin|].
  refine (proj2 (Huniq _ _ "sad" _)).
  - unfold maxlen. simpl. lia.
  - repeat constructor.
  - right. left. reflexivity.
Defined.

(** * Calibration: [cosine_similarity] and [match_emotion] *)

Section Cosine.

Lemma SFmul_zn_l x y : zero_or_nan x = true -> zero_or_nan (SF64mul x y) = true.
Proof. destruct x, y; simpl; try discriminate; reflexivity. Qed.

Lemma SFmul_zn_r x y : zero_or_nan y = true -> zero_or_nan (SF64mul x y) = true.
Proof. destruct x, y; simpl; try discriminate; reflexivity. Qed.

Lemma SFadd_zn x y :
  zero_or_nan x = true -> zero_or_nan y = true -> zero_or_nan (SF64add x y) = true.
Proof.
  destruct x as [[]| | |], y as [[]| | |]; simpl; try discriminate; reflexivity.
Qed.

Lemma SFdiv_zn x y :
  zero_or_nan x = true -> zero_or_nan y = true -> SF64div x y = S754_nan.
Proof. destruct x, y; simpl; try discriminate; reflexivity. Qed.

Lemma eqb_zero_zn (x : float) : (x =? 0) = true -> zero_or_nan (Prim2SF x) = true.
Proof.
  rewrite FloatAxioms.eqb_spec. change (Prim2SF 0) with (S754_zero false).
  unfold SFeqb. destruct (Prim2SF x) as [s|s| |s m e]; simpl; try reflexivity;
    destruct s; discriminate.
Qed.

Lemma SFdiv_zero_not_finite x y :
  zero_or_nan y = true ->
  match SF64div x y with S754_nan | S754_infinity _ => True | _ => False end.
Proof. destruct x, y; simpl; try discriminate; intros _; exact I. Qed.

Lemma is_finite_spec (x : float) :
  match Prim2SF x with S754_nan | S754_infinity _ => True | _ => False end ->
  is_finite x = false.
Proof.
  intros H. unfold is_finite, is_nan, is_infinity.
  rewrite !FloatAxioms.eqb_spec, abs_spec.
  destruct (Prim2SF x) as [s|[]| |s m e]; try contradiction; reflexivity.
Qed.

Lemma dot_zero (ps : list (float * float)) :
  Forall (fun p => (fst p =? 0) = true \/ (snd p =? 0) = true) ps ->
  forall acc, zero_or_nan (Prim2SF acc) = true ->
  zero_or_nan (Prim2SF (fold_left (fun acc p => acc + fst p * snd p) ps acc)) = true.
Proof.
  induction 1 as [|p ps Hp Hps IH]; simpl; intros acc Hacc; [exact Hacc|].
  apply IH. rewrite add_spec, mul_spec.
  apply SFadd_zn; [exact Hacc|].
  destruct Hp as [Hp|Hp]; [apply SFmul_zn_l|apply SFmul_zn_r]; now apply eqb_zero_zn.
Qed.

Lemma combine_zero_l (v1 v2 : embedding) :
  all_zero v1 ->
  Forall (fun p => (fst p =? 0) = true \/ (snd p =? 0) = true) (combine v1 v2).
Proof.
  intros H. revert v2. induction H as [|x v1 Hx Hv IH]; intros [|y v2]; simpl;
    constructor; auto.
Qed.

Lemma combine_zero_r (v1 v2 : embedding) :
  all_zero v2 ->
  Forall (fun p => (fst p =? 0) = true \/ (snd p =? 0) = true) (combine v1 v2).
Proof.
  intros H. revert v1. induction H as [|y v2 Hy Hv IH]; intros [|x v1]; simpl;
    constructor; auto.
Qed.

(** The squares of zeros add up to [+0], never to NaN. *)
Lemma left_norm_zero_eqb (vec : embedding) :
  all_zero vec -> (left_norm vec =? 0) = true.
Proof.
  intros H. unfold left_norm.
  assert (Hsq : forall acc, Prim2SF acc = S754_zero false ->
            Prim2SF (fold_left (fun acc x => acc + x * x) vec acc) = S754_zero false).
  { induction H as [|x vec Hx Hvec IH]; simpl; intros acc Hacc; [exact Hacc|].
    apply IH. rewrite add_spec, mul_spec, Hacc.
    rewrite FloatAxioms.eqb_spec in Hx. change (Prim2SF 0) with (S754_zero false) in Hx.
    destruct (Prim2SF x) as [[]|[]| |[] m e]; try discriminate Hx; reflexivity. }
  rewrite FloatAxioms.eqb_spec, sqrt_spec, (Hsq 0 eq_refl). reflexivity.
Qed.

(** Adding from the left is one of the ways that respect zeros. *)
Lemma left_numpy_zero_respecting : zero_respecting left_numpy.
Proof.
  split.
  - intros vec H. now apply left_norm_zero_eqb.
  - intros vec1 vec2 d Hz. simpl. unfold left_dot.
    destruct (Nat.eqb (length vec1) (length vec2)); [|discriminate].
    intros Hd. injection Hd as <-. apply dot_zero; [|reflexivity].
    destruct Hz; [now apply combine_zero_l|now apply combine_zero_r].
Qed.

(** C8, as the code has it.  [cosine_similarity] has no guard: whenever
    [np.dot] returns a value, the result is that value divided by the
    product of the two norms, whatever the norms are.  When a norm is
    zero the result is not a finite number, and it is NaN when the dot
    product is zero or NaN.  So with a numpy that respects zeros, the
    result is NaN whenever either vector is all zeros. *)
Theorem cosine_similarity_unguarded (np : numpy) (vec1 vec2 : embedding) (d : float) :
  np_dot np vec1 vec2 = Some d ->
  cosine_similarity np vec1 vec2 = Some (d / (np_norm np vec1 * np_norm np vec2)) /\
  ((np_norm np vec1 =? 0) = true \/ (np_norm np vec2 =? 0) = true ->
   is_finite (d / (np_norm np vec1 * np_norm np vec2)) = false /\
   (zero_or_nan (Prim2SF d) = true -> cosine_similarity np vec1 vec2 = Some nan)) /\
  (zero_respecting np -> all_zero vec1 \/ all_zero vec2 ->
   cosine_similarity np vec1 vec2 = Some nan).
Proof.
  intros Hd. unfold cosine_similarity. rewrite Hd.
  assert (Hprod : (np_norm np vec1 =? 0) = true \/ (np_norm np vec2 =? 0) = true ->
                  zero_or_nan (Prim2SF (np_norm np vec1 * np_norm np vec2)) = true).
  { intros Hn. rewrite mul_spec.
    destruct Hn as [Hn|Hn]; [apply SFmul_zn_l|apply SFmul_zn_r]; now apply eqb_zero_zn. }
  assert (Hnan : (np_norm np vec1 =? 0) = true \/ (np_norm np vec2 =? 0) = true ->
                 zero_or_nan (Prim2SF d) = true ->
                 Some (d / (np_norm np vec1 * np_norm np vec2)) = Some nan).
  { intros Hn Hz. f_equal. apply Prim2SF_inj. rewrite div_spec.
    change (Prim2SF nan) with S754_nan. apply SFdiv_zn; [exact Hz|now apply Hprod]. }
  split; [reflexivity|]. split.
  - intros Hn. split; [|now apply Hnan].
    apply is_finite_spec. rewrite div_spec. apply SFdiv_zero_not_finite.
    now apply Hprod.
  - intros [Hnorm Hdot] Hz. apply Hnan.
    + destruct Hz as [Hz|Hz]; [left|right]; now apply Hnorm.
    + now apply (Hdot vec1 vec2).
Qed.

End Cosine.

Section Matching.

Variables (np : numpy) (current_vector : embedding).

(** The loop of [match_emotion] visits the label averages in order and
    keeps a candidate only when its average is strictly greater. *)
Lemma best_of_scan (calibration_data : list (string * list embedding)) :
  forall avgs best,
    label_averages np current_vector calibration_data = Some avgs ->
    best_of np current_vector calibration_data best =
    Some (fold_left scan_step avgs best).
Proof.
  induction calibration_data as [|[emotion embeddings] rest IH]; simpl;
    intros avgs best H.
  - injection H as <-. reflexivity.
  - destruct (similarities_of np current_vector embeddings) as [ss|]; [|discriminate].
    destruct (label_averages np current_vector rest) as [avgs'|]; [|discriminate].
    injection H as <-. simpl.
    unfold scan_step at 2. simpl.
    destruct (Py.gtb (np_mean np ss) (snd best)); now apply IH.
Qed.

Lemma label_averages_in (calibration_data : list (string * list embedding)) :
  forall avgs l a,
    label_averages np current_vector calibration_data = Some avgs ->
    In (l, a) avgs ->
    exists embeddings similarities,
      In (l, embeddings) calibration_data /\
      similarities_of np current_vector embeddings = Some similarities /\
      a = np_mean np similarities.
Proof.
  induction calibration_data as [|[emotion embeddings] rest IH]; simpl;
    intros avgs l a H Hin.
  - injection H as <-. contradiction Hin.
  - destruct (similarities_of np current_vector embeddings) as [ss|] eqn:Hss;
      [|discriminate].
    destruct (label_averages np current_vector rest) as [avgs'|]; [|discriminate].
    injection H as <-. destruct Hin as [Heq|Hin].
    + injection Heq as <- <-. exists embeddings, ss. auto.
    + destruct (IH _ _ _ eq_refl Hin) as [e [s [H1 [H2 H3]]]].
      exists e, s. auto.
Qed.

Lemma scan_spec (avgs : list (string * float)) : forall seen best,
  (forall l a, In (l, a) seen -> Py.gtb a (snd best) = false) ->
  (best = (None, 0) \/
   exists l, fst best = Some l /\ In (l, snd best) seen /\ Py.gtb (snd best) 0 = true) ->
  (forall l a, In (l, a) (seen ++ avgs) ->
     Py.gtb a (snd (fold_left scan_step avgs best)) = false) /\
  (fold_left scan_step avgs best = (None, 0) \/
   exists l, fst (fold_left scan_step avgs best) = Some l /\
             In (l, snd (fold_left scan_step avgs best)) (seen ++ avgs) /\
             Py.gtb (snd (fold_left scan_step avgs best)) 0 = true).
Proof.
  induction avgs as [|[l0 a0] avgs IH]; intros seen best Hmax Horigin; simpl.
  - rewrite app_nil_r. auto.
  - replace (seen ++ (l0, a0) :: avgs) with ((seen ++ [(l0, a0)]) ++ avgs)
      by now rewrite <- app_assoc.
    assert (Hstep : scan_step best (l0, a0) =
                    if snd best <? a0 then (Some l0, a0) else best) by reflexivity.
    rewrite Hstep. clear Hstep. unfold Py.gtb in Hmax, Horigin.
    destruct (snd best <? a0) eqn:Hgt; apply IH; unfold Py.gtb; simpl.
    + intros l a Hin. apply in_app_iff in Hin. destruct Hin as [Hin|[Heq|[]]].
      * destruct (a0 <? a) eqn:Ha; [|reflexivity].
        rewrite <- (Hmax _ _ Hin). symmetry. now apply ltb_trans with a0.
      * injection Heq as _ <-. apply ltb_irrefl.
    + right. exists l0. split; [reflexivity|]. split.
      * apply in_or_app. right. now left.
      * destruct Horigin as [->|[l [_ [_ H0]]]]; [exact Hgt|].
        now apply ltb_trans with (snd best).
    + intros l a Hin. apply in_app_iff in Hin. destruct Hin as [Hin|[Heq|[]]].
      * now apply (Hmax l).
      * injection Heq as _ <-. exact Hgt.
    + destruct Horigin as [H|[l [H1 [H2 H3]]]]; [now left|right].
      exists l. split; [exact H1|]. split; [|exact H3].
      apply in_or_app. now left.
Qed.

End Matching.

Section MatchEmotion.

Variables (np : numpy) (db : option (list row))
  (represent : frame -> option (list embedding)).

(** The dict of a user holds, under every label, the samples stored for
    the user under that label. *)
Lemma get_user_calibration_samples
    (user_id : Z) (l : string) (embeddings : list embedding) :
  In (l, embeddings) (get_user_calibration db user_id) ->
  embeddings = stored_samples db user_id l.
Proof.
  unfold get_user_calibration, stored_samples. destruct db as [rows|]; [|intros []].
  intros H. now apply (group_by_label_sound _ _ _ _ (le_n _)) in H.
Qed.

(** C9, as the code has it, for the dot product, norm and mean of
    whatever numpy is at hand.  For a user with stored samples and a frame
    with an embedding, every calibrated label gets the average cosine
    similarity of the current embedding to its stored samples; the scan
    keeps the first label whose average is above every earlier one,
    starting from no label at 0.0.  The label and its average are
    returned when that average exceeds 0.7; otherwise no label is
    returned, together with the value the scan ended on: the greatest
    average when some average is above 0.0, and 0.0 when none is. *)
Theorem match_emotion_threshold
    (user_id : Z) (fr : frame) (current_vector : embedding)
    (more : list embedding) (avgs : list (string * float)) :
  get_user_calibration db user_id <> [] ->
  represent fr = Some (current_vector :: more) ->
  label_averages np current_vector (get_user_calibration db user_id) = Some avgs ->
  (forall l a, In (l, a) avgs ->
     exists similarities,
       similarities_of np current_vector (stored_samples db user_id l) =
         Some similarities /\
       a = np_mean np similarities) /\
  exists best_match best_similarity,
    (forall l a, In (l, a) avgs -> Py.gtb a best_similarity = false) /\
    ((best_match = None /\ best_similarity = 0) \/
     (exists l, best_match = Some l /\ In (l, best_similarity) avgs /\
                Py.gtb best_similarity 0 = true)) /\
    (Py.gtb best_similarity 0.7 = true ->
       best_match <> None /\
       match_emotion np db represent user_id fr = (best_match, best_similarity)) /\
    (Py.gtb best_similarity 0.7 = false ->
       match_emotion np db represent user_id fr = (None, best_similarity)).
Proof.
  intros Hdata Hrep Havgs. split.
  - intros l a Hin.
    destruct (label_averages_in _ _ _ _ _ _ Havgs Hin) as [embs [sims [H1 [H2 H3]]]].
    apply get_user_calibration_samples in H1. subst embs. now exists sims.
  - pose proof (best_of_scan np current_vector _ _ (None, 0) Havgs) as Hscan.
    destruct (scan_spec avgs [] (None, 0)) as [Hmax Horigin].
    { intros l a []. }
    { now left. }
    simpl in Hmax, Horigin.
    destruct (fold_left scan_step avgs (None, 0))
      as [best_match best_similarity] eqn:Hfold.
    simpl in Hmax, Horigin.
    exists best_match, best_similarity. split; [exact Hmax|].
    assert (Horigin' : (best_match = None /\ best_similarity = 0) \/
              (exists l, best_match = Some l /\ In (l, best_similarity) avgs /\
                         Py.gtb best_similarity 0 = true)).
    { destruct Horigin as [H|H]; [left; now injection H|right; exact H]. }
    split; [exact Horigin'|].
    assert (Hres : match_emotion np db represent user_id fr =
                   if Py.gtb best_similarity 0.7
                   then (best_match, best_similarity) else (None, best_similarity)).
    { unfold match_emotion.
      destruct (get_user_calibration db user_id) as [|entry data]; [congruence|].
      rewrite Hrep, Hscan. reflexivity. }
    split; intros Hgt; rewrite Hgt in Hres; [split; [|exact Hres]|exact Hres].
    destruct Horigin' as [[_ ->]|[l [-> _]]]; [discriminate Hgt|discriminate].
Qed.

End MatchEmotion.

(** The claim as stated fails at a zero vector: the dot product is 0,
    the norms are 0 and 1 (exactly, in whatever order the squares are
    added), their product is zero, the division is carried out, and the
    result is NaN. *)
Lemma cosine_similarity_zero_vector_counterexample :
  all_zero [0; 0] /\
  np_dot left_numpy [0; 0] [1; 0] = Some 0 /\
  (np_norm left_numpy [0; 0] * np_norm left_numpy [1; 0] =? 0) = true /\
  cosine_similarity left_numpy [0; 0] [1; 0] = Some nan /\
  ~ (exists x, cosine_similarity left_numpy [0; 0] [1; 0] = Some x /\
               is_nan x = false).
Proof.
  split; [repeat constructor|]. split; [reflexivity|]. split; [reflexivity|].
  split; [reflexivity|].
  intros [x [H Hx]]. injection H as <-. discriminate Hx.
Qed.

Lemma cosine_similarity_unguarded_witness :
  (np_dot left_numpy [0; 0] [1; 0] = Some 0 /\ all_zero [0; 0]) /\
  cosine_similarity left_numpy [0; 0] [1; 0] = Some nan.
Proof.
  assert (Hz : all_zero [0; 0]) by repeat constructor.
  split; [split; [reflexivity|exact Hz]|].
  exact (proj2 (proj2 (cosine_similarity_unguarded left_numpy [0; 0] [1; 0] 0 eq_refl))
           left_numpy_zero_respecting (or_introl Hz)).
Defined.

(** The claim as stated fails when no average is above 0.0: the only
    average found is -1, yet the similarity returned with no label is
    0.0. *)
Lemma match_emotion_floor_counterexample :
  label_averages left_numpy [-1; 0]
    (get_user_calibration opposite_db 1) =
    Some [("happy", -1)] /\
  match_emotion left_numpy opposite_db represent_opposite 1 [] =
    (None, 0) /\
  match_emotion left_numpy opposite_db represent_opposite 1 [] <>
    (None, -1).
Proof.
  split; [reflexivity|]. split; [reflexivity|].
  intros H. apply (f_equal (fun p => snd p =? 0)) in H. discriminate H.
Qed.

(** A user calibrated for [happy] and [sad], and a current embedding
    close to the [happy] samples: the match is [happy] at the average
    (1 + 0.6) / 2. *)
Lemma match_emotion_threshold_witness :
  match_emotion left_numpy calibrated_db represent_near_happy 1 [] =
    (Some "happy", 0.8) /\
  exists avgs,
    label_averages left_numpy [1; 0] (get_user_calibration calibrated_db 1) =
      Some avgs /\
    exists best_match best_similarity,
      (forall l a, In (l, a) avgs -> Py.gtb a best_similarity = false) /\
      (Py.gtb best_similarity 0.7 = true ->
         best_match <> None /\
         match_emotion left_numpy calibrated_db
           represent_near_happy 1 [] = (best_match, best_similarity)).
Proof.
  split; [reflexivity|].
  eexists. split; [reflexivity|].
  assert (Hdata : get_user_calibration calibrated_db 1 <> [])
    by discriminate.
  destruct (match_emotion_threshold left_numpy calibrated_db represent_near_happy
              1 [] [1; 0] [] _ Hdata eq_refl eq_refl)
    as [_ [best_match [best_similarity [Hmax [_ [Hhigh _]]]]]].
  exists best_match, best_similarity. split; [exact Hmax|exact Hhigh].
Defined.

(** * The mood state: [update_mood] *)

Section MoodState.

Import Props.

(** The reduction has three values. *)
Lemma combine_moods_range (face voice : string) :
  In (combine_moods face voice) moods.
Proof.
  unfold combine_moods, moods.
  destruct (_ || _); [now left|].
  destruct (_ || _); [right; now left|right; right; now left].
Qed.

(** X1.  After [update_mood] the stored mood is the reduction of the labels
    of the call and the time is the one of the call; a change is
    reported exactly when that mood differs from the one before; and the
    stored labels are those of the call only when a change is reported:
    otherwise they stay as they were. *)
Theorem update_mood_post (now : Z) (face voice : string) (st : mood_state) :
  combined_mood (fst (update_mood now face voice st)) = combine_moods face voice /\
  last_update (fst (update_mood now face voice st)) = now /\
  (snd (update_mood now face voice st) = true <->
   combine_moods face voice <> combined_mood st) /\
  (snd (update_mood now face voice st) = true ->
   face_emotion (fst (update_mood now face voice st)) = face /\
   voice_sentiment (fst (update_mood now face voice st)) = voice) /\
  (snd (update_mood now face voice st) = false ->
   face_emotion (fst (update_mood now face voice st)) = face_emotion st /\
   voice_sentiment (fst (update_mood now face voice st)) = voice_sentiment st).
Proof.
  unfold update_mood.
  destruct (String.eqb_spec (combine_moods face voice) (combined_mood st)) as [He|Hne];
    simpl.
  - repeat split; intros; try congruence; try easy.
  - repeat split; intros; try congruence; try easy.
Qed.

Lemma update_mood_consistent (now : Z) (face voice : string) (st : mood_state) :
  mood_consistent st -> mood_consistent (fst (update_mood now face voice st)).
Proof.
  unfold mood_consistent, update_mood.
  destruct (String.eqb (combine_moods face voice) (combined_mood st)); simpl; auto.
Qed.

Lemma run_updates_consistent (calls : list mood_call) : forall st,
  mood_consistent st -> mood_consistent (run_updates calls st).
Proof.
  induction calls as [|c calls IH]; simpl; intros st H; [exact H|].
  apply IH. now apply update_mood_consistent.
Qed.

(** X2.  In every state that calls of [update_mood] reach from the initial
    one, the stored mood is the reduction of the stored labels, and it
    is [low], [cheerful] or [neutral]. *)
Theorem mood_state_invariant (now : Z) (calls : list mood_call) :
  mood_consistent (run_updates calls (initial_mood_state now)) /\
  In (combined_mood (run_updates calls (initial_mood_state now))) moods.
Proof.
  assert (H : mood_consistent (run_updates calls (initial_mood_state now))).
  { apply run_updates_consistent. reflexivity. }
  split; [exact H|]. rewrite H. apply combine_moods_range.
Qed.

(** X3.  A second call with the same labels reports no change and alters
    nothing but the time. *)
Theorem update_mood_twice (now1 now2 : Z) (face voice : string) (st : mood_state) :
  update_mood now2 face voice (fst (update_mood now1 face voice st)) =
  ({| face_emotion := face_emotion (fst (update_mood now1 face voice st));
      voice_sentiment := voice_sentiment (fst (update_mood now1 face voice st));
      combined_mood := combined_mood (fst (update_mood now1 face voice st));
      last_update := now2 |}, false).
Proof.
  assert (Hm : combined_mood (fst (update_mood now1 face voice st)) =
               combine_moods face voice).
  { unfold update_mood.
    destruct (String.eqb_spec (combine_moods face voice) (combined_mood st));
      simpl; auto. }
  unfold update_mood at 1. rewrite Hm. now rewrite String.eqb_refl.
Qed.

End MoodState.

(** * Personas *)

Section Personas.

Import Props main tts_output ai_core.

(** X4.  Whatever the labels, the mood of the reduction selects Luna (tone
    [sad], speech speed 0.85), Kai (tone [happy], speed 1.1) or Echo
    (tone [neutral], speed 1.0) -- never Astra or Nova -- and the prompt
    persona of that mood is an entry of [PERSONALITIES], not the
    fallback. *)
Theorem persona_of_mood (face voice : string) :
  (combine_moods face voice = "low" /\
   name (choose_personality (combine_moods face voice)) = "Luna" /\
   tone (choose_personality (combine_moods face voice)) = "sad" /\
   speed (tone (choose_personality (combine_moods face voice))) = 0.85 \/
   combine_moods face voice = "cheerful" /\
   name (choose_personality (combine_moods face voice)) = "Kai" /\
   tone (choose_personality (combine_moods face voice)) = "happy" /\
   speed (tone (choose_personality (combine_moods face voice))) = 1.1 \/
   combine_moods face voice = "neutral" /\
   name (choose_personality (combine_moods face voice)) = "Echo" /\
   tone (choose_personality (combine_moods face voice)) = "neutral" /\
   speed (tone (choose_personality (combine_moods face voice))) = 1.0) /\
  Py.dict_get personality.PERSONALITIES (combine_moods face voice) =
    Some (prompt_persona (combine_moods face voice)).
Proof.
  destruct (combine_moods_range face voice) as [H|[H|[H|[]]]]; rewrite <- H;
    (split; [|reflexivity]).
  - left. repeat split.
  - right. left. repeat split.
  - right. right. repeat split.
Qed.

End Personas.

(** * The text signal: [analyze_voice_tone] *)

Section VoiceTone.

Import Props.

(** Python's [min] never exceeds its second argument. *)
Lemma min_le_r (a b : float) : (b <? Py.min a b) = false.
Proof.
  unfold Py.min. destruct (b <? a) eqn:H; [apply ltb_irrefl|exact H].
Qed.

Lemma not_above_weaken (k k' c : float) :
  (k <? k') = true -> (k <? c) = false -> (k' <? c) = false.
Proof.
  intros Hk Hc. destruct (k' <? c) eqn:H; [|reflexivity].
  rewrite <- Hc. symmetry. now apply ltb_trans with k'.
Qed.

(** X5.  The confidence of the text signal is never above 0.9, and never
    above 0.8 unless the text has more than one exclamation mark or
    more than half capitals. *)
Theorem analyze_voice_tone_cap (text : string) :
  (0.9 <? snd (analyze_voice_tone text)) = false /\
  (clear_indicators text = false ->
   (0.8 <? snd (analyze_voice_tone text)) = false).
Proof.
  unfold analyze_voice_tone. destruct text as [|c text]; [split; reflexivity|].
  destruct (Py.max_by snd (scores (String c text))) as [d|]; [|split; reflexivity].
  simpl snd. destruct (clear_indicators (String c text)).
  - split; [apply min_le_r|discriminate].
  - split; [|intros _; apply min_le_r].
    apply (not_above_weaken 0.8 0.9); [reflexivity|apply min_le_r].
Qed.

(** X6.  The label of the text signal is one of the five of the score table;
    for a text that is not empty it is the label of the first entry, in
    the order happy, sad, angry, fear, neutral, whose score no entry
    exceeds. *)
Theorem analyze_voice_tone_label (text : string) :
  In (fst (analyze_voice_tone text)) tone_labels /\
  (text <> "" ->
   exists score,
     is_max_of snd (scores text) (fst (analyze_voice_tone text), score)).
Proof.
  unfold analyze_voice_tone. destruct text as [|c text].
  - split; [|congruence]. unfold tone_labels. simpl. tauto.
  - destruct (Py.max_by snd (scores (String c text))) as [[l s]|] eqn:Hmax.
    2:{ discriminate Hmax. }
    apply max_by_spec in Hmax. simpl fst. split.
    + destruct Hmax as [_ [pre [post [Hsplit _]]]].
      assert (Hin : In (l, s) (scores (String c text))).
      { rewrite Hsplit. apply in_elt. }
      unfold scores in Hin. simpl in Hin. unfold tone_labels. simpl.
      intuition congruence.
    + intros _. now exists s.
Qed.

Lemma hits_none (words : list string) (text_lower : string) :
  (forall word, In word words -> Py.contains word text_lower = false) ->
  hits words text_lower = O.
Proof.
  intros H. unfold hits. induction words as [|w words IH]; [reflexivity|].
  simpl. rewrite (H w (or_introl eq_refl)). apply IH.
  intros word Hin. apply H. now right.
Qed.

(** X7.  A text without a word of the lexicon, without an exclamation mark
    and with at most 30% capitals is [neutral] with confidence 0.5. *)
Theorem analyze_voice_tone_quiet (text : string) :
  text <> "" ->
  (forall word,
     In word (happy_words ++ sad_words ++ angry_words ++ fear_words) ->
     Py.contains word (Py.str_lower text) = false) ->
  exclamation_count text = O ->
  Py.gtb (caps_ratio text) 0.3 = false ->
  analyze_voice_tone text = ("neutral", 0.5).
Proof.
  intros Hne Hwords Hbang Hcaps.
  assert (Hs : scores text =
               [("happy", 0); ("sad", 0); ("angry", 0); ("fear", 0); ("neutral", 0.5)]).
  { unfold scores. rewrite Hbang, Hcaps.
    rewrite !hits_none; [reflexivity| | | |];
      intros word Hin; apply Hwords; rewrite !in_app_iff; tauto. }
  assert (Hc : clear_indicators text = false).
  { unfold clear_indicators. rewrite Hbang. simpl.
    unfold Py.gtb in *. apply (not_above_weaken 0.3 0.5); [reflexivity|exact Hcaps]. }
  unfold analyze_voice_tone. destruct text as [|c text]; [congruence|].
  rewrite Hs, Hc. reflexivity.
Qed.

End VoiceTone.

Lemma analyze_voice_tone_quiet_witness :
  ("ok then" <> "" /\ exclamation_count "ok then" = O) /\
  analyze_voice_tone "ok then" = ("neutral", 0.5).
Proof.
  split; [split; [discriminate|reflexivity]|].
  apply analyze_voice_tone_quiet; try reflexivity; try discriminate.
  intros word Hin. simpl in Hin.
  repeat (destruct Hin as [<-|Hin]; [reflexivity|]). contradiction Hin.
Defined.

(** * The calibration store *)

Section CalibrationStore.

Import Props.

Variables (np : numpy) (represent : frame -> option (list embedding)).

Lemma filter_filter_neg {A} (f : A -> bool) (xs : list A) :
  filter f (filter (fun x => negb (f x)) xs) = [].
Proof.
  induction xs as [|x xs IH]; simpl; [reflexivity|].
  destruct (f x) eqn:H; simpl; [exact IH|]. now rewrite H.
Qed.

Lemma filter_idem {A} (f : A -> bool) (xs : list A) :
  filter f (filter f xs) = filter f xs.
Proof.
  induction xs as [|x xs IH]; simpl; [reflexivity|].
  destruct (f x) eqn:H; simpl; [rewrite H; f_equal|]; exact IH.
Qed.

Lemma filter_other_user (u u' : Z) (rows : list row) :
  u' <> u ->
  filter (fun r => Z.eqb (row_user_id r) u')
         (filter (fun r => negb (Z.eqb (row_user_id r) u)) rows) =
  filter (fun r => Z.eqb (row_user_id r) u') rows.
Proof.
  intros Hne. induction rows as [|r rows IH]; simpl; [reflexivity|].
  destruct (Z.eqb_spec (row_user_id r) u) as [He|Hn]; simpl.
  - destruct (Z.eqb_spec (row_user_id r) u'); [congruence|exact IH].
  - destruct (Z.eqb (row_user_id r) u'); [f_equal|]; exact IH.
Qed.

(** What the three readers see depends on the rows of the user only. *)
Lemma readers_of_rows (db db' : option (list row)) (u u' : Z) :
  rows_of db u = rows_of db' u' ->
  (db = None <-> db' = None) ->
  has_calibration db u = has_calibration db' u' /\
  get_user_calibration db u = get_user_calibration db' u' /\
  forall fr, match_emotion np db represent u fr = match_emotion np db' represent u' fr.
Proof.
  intros Hrows Hnone.
  assert (Hg : get_user_calibration db u = get_user_calibration db' u').
  { unfold get_user_calibration, rows_of in *.
    destruct db, db'; try reflexivity; try (now rewrite Hrows);
      destruct Hnone as [H1 H2];
      first [discriminate (H1 eq_refl)|discriminate (H2 eq_refl)]. }
  split; [|split; [exact Hg|]].
  - unfold has_calibration, rows_of in *.
    destruct db, db'; try reflexivity; try (now rewrite Hrows);
      destruct Hnone as [H1 H2];
      first [discriminate (H1 eq_refl)|discriminate (H2 eq_refl)].
  - intros fr. unfold match_emotion. now rewrite Hg.
Qed.

(** X8.  After a [clear_calibration] whose DELETE is committed the user
    has no calibration: the check says so, the dict is empty and no
    frame matches; another call, committed or not, changes nothing.
    After a [clear_calibration] whose DELETE fails the table is as it
    was, so a user who was calibrated still is; the call returns
    nothing in either case. *)
Theorem clear_calibration_clears
    (db : option (list row)) (committed : bool) (user_id : Z) (fr : frame) :
  (has_calibration (clear_calibration db true user_id) user_id = false /\
   get_user_calibration (clear_calibration db true user_id) user_id = [] /\
   match_emotion np (clear_calibration db true user_id) represent user_id fr =
     (None, 0) /\
   clear_calibration (clear_calibration db true user_id) committed user_id =
     clear_calibration db true user_id) /\
  (clear_calibration db false user_id = db /\
   has_calibration (clear_calibration db false user_id) user_id =
     has_calibration db user_id).
Proof.
  split; [|split; reflexivity].
  unfold has_calibration, get_user_calibration, match_emotion, clear_calibration.
  destruct db as [rows|]; simpl; [|destruct committed; repeat split].
  rewrite filter_filter_neg. simpl. repeat split.
  destruct committed; simpl; [|reflexivity]. now rewrite filter_idem.
Qed.

(** X9.  Clearing or extending the calibration of one user leaves what every
    other user has stored, and what is matched for them, as it was. *)
Theorem calibration_isolated
    (db : option (list row)) (committed : bool) (user_id other : Z)
    (emotion : string) (fr : frame) :
  other <> user_id ->
  (has_calibration (clear_calibration db committed user_id) other =
     has_calibration db other /\
   get_user_calibration (clear_calibration db committed user_id) other =
     get_user_calibration db other /\
   forall fr', match_emotion np (clear_calibration db committed user_id)
                 represent other fr' =
               match_emotion np db represent other fr') /\
  (has_calibration (snd (save_calibration_sample db represent user_id emotion fr)) other =
     has_calibration db other /\
   get_user_calibration
     (snd (save_calibration_sample db represent user_id emotion fr)) other =
     get_user_calibration db other /\
   forall fr', match_emotion np
                 (snd (save_calibration_sample db represent user_id emotion fr))
                 represent other fr' =
               match_emotion np db represent other fr').
Proof.
  intros Hne. split; apply readers_of_rows.
  - unfold rows_of, clear_calibration.
    destruct committed; [|reflexivity].
    destruct db as [rows|]; simpl; [|reflexivity].
    now apply filter_other_user.
  - unfold clear_calibration.
    destruct committed; [|tauto]. destruct db; simpl; split; congruence.
  - unfold save_calibration_sample, rows_of.
    destruct (represent fr) as [[|e more]|]; try reflexivity.
    destruct db as [rows|]; simpl; [|reflexivity].
    rewrite filter_app. simpl.
    destruct (Z.eqb_spec user_id other); [congruence|]. now rewrite app_nil_r.
  - unfold save_calibration_sample.
    destruct (represent fr) as [[|e more]|]; try tauto.
    destruct db; simpl; split; congruence.
Qed.

(** X10.  The check [has_calibration] answers yes exactly when the dict of
    [get_user_calibration] has an entry. *)
Theorem has_calibration_iff (db : option (list row)) (user_id : Z) :
  has_calibration db user_id = true <-> get_user_calibration db user_id <> [].
Proof.
  unfold has_calibration, get_user_calibration. destruct db as [rows|].
  - destruct (filter _ rows) as [|r rs] eqn:Hf; simpl.
    + split; [discriminate|]. intros H. exfalso. apply H. reflexivity.
    + split; [|reflexivity]. intros _. apply group_by_label_nonempty. discriminate.
  - split; [discriminate|]. intros H. exfalso. apply H. reflexivity.
Qed.

Lemma group_by_label_snoc {V} (xs : list (string * V)) (k : string) (v : V) :
  group_by_label (xs ++ [(k, v)]) = dict_append (group_by_label xs) k v.
Proof. unfold group_by_label. now rewrite fold_left_app. Qed.

Lemma occurrences_app {V} (l : string) (xs ys : list (string * V)) :
  occurrences l (xs ++ ys) = occurrences l xs ++ occurrences l ys.
Proof. unfold occurrences. now rewrite filter_app, map_app. Qed.

(** X11.  A sample is stored when the model finds a face and the database
    answers: afterwards the user is calibrated, the sample is the last
    one under its label, and the samples under every other label are as
    before.  When the call reports failure nothing is stored. *)
Theorem save_calibration_sample_stores
    (db : option (list row)) (user_id : Z) (emotion : string) (fr : frame) :
  (fst (save_calibration_sample db represent user_id emotion fr) = true ->
   exists embedding_vector more,
     represent fr = Some (embedding_vector :: more) /\
     has_calibration (snd (save_calibration_sample db represent user_id emotion fr))
       user_id = true /\
     get_user_calibration
       (snd (save_calibration_sample db represent user_id emotion fr)) user_id =
       dict_append (get_user_calibration db user_id) emotion embedding_vector /\
     stored_samples (snd (save_calibration_sample db represent user_id emotion fr))
       user_id emotion =
       stored_samples db user_id emotion ++ [embedding_vector] /\
     forall l, l <> emotion ->
       stored_samples (snd (save_calibration_sample db represent user_id emotion fr))
         user_id l = stored_samples db user_id l) /\
  (fst (save_calibration_sample db represent user_id emotion fr) = false ->
   snd (save_calibration_sample db represent user_id emotion fr) = db).
Proof.
  unfold save_calibration_sample.
  destruct (represent fr) as [[|e more]|]; try (split; [discriminate|reflexivity]).
  destruct db as [rows|]; [|split; [discriminate|reflexivity]].
  split; [|discriminate]. intros _. exists e, more. split; [reflexivity|].
  simpl. unfold has_calibration, get_user_calibration, stored_samples.
  rewrite filter_app. simpl. rewrite Z.eqb_refl.
  rewrite map_app. simpl. repeat split.
  - rewrite length_app. simpl. apply Nat.ltb_lt. lia.
  - apply group_by_label_snoc.
  - rewrite occurrences_app. unfold occurrences at 2. simpl.
    now rewrite String.eqb_refl.
  - intros l Hl. rewrite occurrences_app. unfold occurrences at 2. simpl.
    destruct (String.eqb_spec emotion l); [congruence|]. apply app_nil_r.
Qed.

End CalibrationStore.

(** * The detector over many calls *)

Section DetectorRuns.

Import Props.

Variable cfg : Config.

(** A call leaves the window as it was or appends one sample to it. *)
Lemma detect_window (w : world) (user_id : option Z) (bypass_cache : bool) (st : state) :
  recent_emotions (final (detect_emotion_sync cfg w user_id bypass_cache st)) =
    recent_emotions st \/
  exists sample,
    recent_emotions (final (detect_emotion_sync cfg w user_id bypass_cache st)) =
      deque_append (recent_emotions st) sample.
Proof.
  unfold detect_emotion_sync.
  destruct (negb bypass_cache && cache_fresh cfg (time_check w) (_emotion_cache st));
    [now left|].
  destruct (cap_read w) as [fr|]; [|now left].
  destruct (personalized w user_id fr) as [[[e c]|] evs]; [now left|].
  destruct (classify w fr) as [sample|]; [|now left].
  right. exists sample.
  now destruct (smooth (EMOTION_CONFIDENCE_THRESHOLD cfg)
                  (deque_append (recent_emotions st) sample)) as [[se ac]|].
Qed.

(** X12.  Whatever the sequence of calls -- those of the background monitor
    included -- the smoothing window never holds more than 8 samples. *)
Theorem window_bounded (calls : list call) :
  (length (recent_emotions (run_calls cfg calls initial_state)) <= maxlen)%nat.
Proof.
  assert (H : forall st, (length (recent_emotions st) <= maxlen)%nat ->
                         (length (recent_emotions (run_calls cfg calls st)) <= maxlen)%nat).
  { induction calls as [|c calls IH]; simpl; intros st Hst; [exact Hst|].
    apply IH. unfold do_call.
    destruct (detect_window (call_world c) (call_user c) (call_bypass c) st)
      as [->|[sample ->]]; [exact Hst|now apply deque_append_bounded]. }
  apply H. simpl. unfold maxlen. lia.
Qed.

Lemma lastn_all {A} (n : nat) (xs : list A) :
  (length xs <= n)%nat -> lastn n xs = xs.
Proof.
  intros H. unfold lastn. replace (length xs - n)%nat with O by lia. reflexivity.
Qed.

Lemma lastn_snoc_full {A} (n : nat) (xs : list A) (x : A) :
  (S n <= length xs + 1)%nat ->
  lastn (S n) (xs ++ [x]) = lastn n xs ++ [x].
Proof.
  intros H. unfold lastn. rewrite length_app. simpl.
  replace (length xs + 1 - S n)%nat with (length xs - n)%nat by lia.
  rewrite skipn_app.
  replace (length xs - n - length xs)%nat with O by lia. reflexivity.
Qed.

Lemma tl_lastn {A} (n : nat) (xs : list A) :
  (S n <= length xs)%nat -> tl (lastn (S n) xs) = lastn n xs.
Proof.
  intros H. unfold lastn.
  replace (length xs - n)%nat with (S (length xs - S n)) by lia.
  generalize (length xs - S n)%nat as k. clear H.
  induction xs as [|x xs IH]; intros k.
  - rewrite !skipn_nil. reflexivity.
  - destruct k as [|k]; [reflexivity|]. simpl skipn at 1. rewrite IH. reflexivity.
Qed.

(** X13.  The window is first in, first out: after any sequence of samples it
    holds exactly the last 8 of them, in order. *)
Theorem window_is_last_samples (samples : list (string * float)) :
  window_after [] samples = lastn maxlen samples.
Proof.
  induction samples as [|x samples IH] using rev_ind; [reflexivity|].
  rewrite window_after_snoc, IH. unfold deque_append.
  destruct (Nat.eqb_spec (length (lastn maxlen samples)) maxlen) as [He|Hne].
  - assert (Hlen : (maxlen <= length samples)%nat).
    { unfold lastn in He. rewrite length_skipn in He. unfold maxlen in *. lia. }
    unfold maxlen in *. rewrite tl_lastn by exact Hlen.
    symmetry. apply lastn_snoc_full. lia.
  - assert (Hlen : (length samples < maxlen)%nat).
    { unfold lastn in Hne. rewrite length_skipn in Hne. unfold maxlen in *. lia. }
    rewrite lastn_all by lia. symmetry. apply lastn_all.
    rewrite length_app. simpl. lia.
Qed.

(** *** What the detector hands out *)

Lemma match_emotion_label_above (np : numpy) (db : option (list row))
    (represent : frame -> option (list embedding)) (u : Z) (fr : frame)
    (e : string) (c : float) :
  match_emotion np db represent u fr = (Some e, c) -> Py.gtb c 0.7 = true.
Proof.
  unfold match_emotion.
  destruct (get_user_calibration db u); [discriminate|].
  destruct (represent fr) as [[|v vs]|]; try discriminate.
  destruct (best_of np v _ (None, 0)) as [[bm bs]|]; [|discriminate].
  destruct (Py.gtb bs 0.7) eqn:H; [|discriminate].
  intros Heq. injection Heq as _ <-. exact H.
Qed.

Lemma personalized_above (w : world) (user_id : option Z) (fr : frame)
    (e : string) (c : float) :
  fst (personalized w user_id fr) = Some (e, c) ->
  (0.7 <? c) = true /\ e <> "" /\
  exists u, truthy_user user_id = Some u /\
            has_calibration (calibration_db w) u = true /\
            match_emotion (kernels w) (calibration_db w) (represent w) u fr =
              (Some e, c) /\
            snd (personalized w user_id fr) = [HasCalibration u; MatchEmotion u].
Proof.
  unfold personalized.
  destruct (truthy_user user_id) as [u|]; [|discriminate].
  destruct (has_calibration (calibration_db w) u) eqn:Hhas; [|discriminate].
  destruct (match_emotion (kernels w) (calibration_db w) (represent w) u fr)
    as [[e'|] c'] eqn:Hm; [|discriminate].
  destruct (String.eqb_spec e' "") as [->|Hne]; simpl; [discriminate|].
  destruct (Py.gtb c' 0.7) eqn:Hgt; simpl; [|discriminate].
  intros H. injection H as <- <-. split; [exact Hgt|]. split; [exact Hne|].
  exists u. repeat split; first [reflexivity|assumption].
Qed.

(** One call, from a state whose cached pair is presentable. *)
Lemma detect_presentable (w : world) (user_id : option Z) (bypass_cache : bool) (st : state) :
  presentable cfg (get_cached_emotion st) ->
  presentable cfg
    (get_cached_emotion (final (detect_emotion_sync cfg w user_id bypass_cache st))) /\
  forall p, returned (detect_emotion_sync cfg w user_id bypass_cache st) = Some p ->
            presentable cfg p.
Proof.
  intros Hst. unfold detect_emotion_sync.
  destruct (negb bypass_cache && cache_fresh cfg (time_check w) (_emotion_cache st)).
  { simpl. split; [exact Hst|]. intros p H. injection H as <-. exact Hst. }
  destruct (cap_read w) as [fr|].
  2:{ simpl. split; [exact Hst|]. intros p H. injection H as <-. now left. }
  destruct (personalized w user_id fr) as [[[e c]|] evs] eqn:Hp.
  { assert (Hc : (0.7 <? c) = true).
    { apply (personalized_above w user_id fr e c). now rewrite Hp. }
    simpl. split; [|intros p H; injection H as <-]; right; right; exact Hc. }
  destruct (classify w fr) as [sample|].
  2:{ simpl. split; [exact Hst|]. intros p H. injection H as <-. now left. }
  unfold smooth.
  destruct (Py.max_by _ _) as [item|]; [|simpl; split; [exact Hst|discriminate]].
  destruct (Py.mean (snd item) <? EMOTION_CONFIDENCE_THRESHOLD cfg) eqn:Hlow; simpl.
  - split; [|intros p H; injection H as <-]; now left.
  - split; [|intros p H; injection H as <-]; right; left; exact Hlow.
Qed.

(** X14.  Whatever the sequence of calls, the pair in the cache and the pair
    that the next call returns are presentable: the label is [neutral],
    or the confidence is not below the configured threshold, or it is
    above the 0.7 of a personalised match. *)
Theorem detector_presentable (calls : list call) (next : call) :
  presentable cfg (get_cached_emotion (run_calls cfg calls initial_state)) /\
  forall p, returned (do_call cfg next (run_calls cfg calls initial_state)) = Some p ->
            presentable cfg p.
Proof.
  assert (H : forall st, presentable cfg (get_cached_emotion st) ->
                         presentable cfg (get_cached_emotion (run_calls cfg calls st))).
  { induction calls as [|c calls IH]; simpl; intros st Hst; [exact Hst|].
    apply IH. unfold do_call. now apply detect_presentable. }
  assert (H0 : presentable cfg (get_cached_emotion (run_calls cfg calls initial_state))).
  { apply H. now left. }
  split; [exact H0|]. unfold do_call. now apply detect_presentable.
Qed.

(** X15.  A personalised match is handed out as it is: when the user is
    calibrated and [match_emotion] names a label for the frame, a call
    that gets past the cache returns that label with its similarity --
    which is above 0.7, so the detector's own check of it never fails --
    and caches it, without running the generic classifier and without
    touching the smoothing window. *)
Theorem personalized_match_returned (w : world) (u : Z) (bypass_cache : bool)
    (st : state) (fr : frame) (e : string) (c : float) :
  (negb bypass_cache && cache_fresh cfg (time_check w) (_emotion_cache st)) = false ->
  cap_read w = Some fr ->
  u <> 0%Z ->
  has_calibration (calibration_db w) u = true ->
  match_emotion (kernels w) (calibration_db w) (represent w) u fr = (Some e, c) ->
  e <> "" ->
  (0.7 <? c) = true /\
  detect_emotion_sync cfg w (Some u) bypass_cache st =
    {| returned := Some (e, c);
       final := {| recent_emotions := recent_emotions st;
                   _emotion_cache :=
                     {| emotion := e; confidence := c; timestamp := time_write w |} |};
       trace := [Capture; HasCalibration u; MatchEmotion u; CacheWrite] |}.
Proof.
  intros Hmiss Hcap Hu Hhas Hm He.
  pose proof (match_emotion_label_above _ _ _ _ _ _ _ Hm) as Hc.
  split; [exact Hc|].
  unfold detect_emotion_sync, personalized, truthy_user.
  rewrite Hmiss, Hcap.
  destruct (Z.eqb_spec u 0); [contradiction|].
  rewrite Hhas, Hm, Hc.
  destruct (String.eqb_spec e ""); [contradiction|]. reflexivity.
Qed.

End DetectorRuns.

(** * The detector without a user *)

Section DetectorWithoutUser.

Import Props.

Variable cfg : Config.

(** Without a user the call reads neither the calibration table nor the
    embedding model. *)
Lemma detect_without_user (w : world) (db : option (list row))
    (r : frame -> option (list embedding)) (user_id : option Z)
    (bypass_cache : bool) (st : state) :
  truthy_user user_id = None ->
  detect_emotion_sync cfg (with_calibration w db r) user_id bypass_cache st =
  detect_emotion_sync cfg w user_id bypass_cache st.
Proof.
  intros H. unfold detect_emotion_sync, personalized, classify, with_calibration.
  simpl. rewrite H. reflexivity.
Qed.

Lemma trace_without_user (w : world) (user_id : option Z)
    (bypass_cache : bool) (st : state) :
  truthy_user user_id = None ->
  existsb calibration_event
    (trace (detect_emotion_sync cfg w user_id bypass_cache st)) = false.
Proof.
  intros H. unfold detect_emotion_sync, personalized. rewrite H.
  destruct (negb bypass_cache && cache_fresh cfg (time_check w) (_emotion_cache st));
    [reflexivity|].
  destruct (cap_read w) as [fr|]; [|reflexivity].
  destruct (classify w fr) as [sample|]; [|reflexivity].
  now destruct (smooth (EMOTION_CONFIDENCE_THRESHOLD cfg)
                  (deque_append (recent_emotions st) sample)) as [[se ac]|].
Qed.

(** X16.  A call for no user, or for the user id 0, never consults the
    calibration store: its outcome is the same whatever the store holds,
    and no lookup or match appears among its effects. *)
Theorem detect_emotion_sync_anonymous (w : world) (db : option (list row))
    (r : frame -> option (list embedding)) (user_id : option Z)
    (bypass_cache : bool) (st : state) :
  user_id = None \/ user_id = Some 0%Z ->
  detect_emotion_sync cfg (with_calibration w db r) user_id bypass_cache st =
    detect_emotion_sync cfg w user_id bypass_cache st /\
  existsb calibration_event
    (trace (detect_emotion_sync cfg w user_id bypass_cache st)) = false.
Proof.
  intros H.
  assert (Hu : truthy_user user_id = None) by (destruct H as [->| ->]; reflexivity).
  split; [now apply detect_without_user|now apply trace_without_user].
Qed.

(** X17.  The background monitor runs for no user: the globals it leaves are
    the same whatever the calibration store holds in any round, so the
    pair it keeps in the cache is never a personalised one. *)
Theorem monitor_ignores_calibration (rounds : list world) (db : option (list row))
    (r : frame -> option (list embedding)) (st : state) :
  _monitor_loop cfg None (map (fun w => with_calibration w db r) rounds) st =
  _monitor_loop cfg None rounds st.
Proof.
  unfold _monitor_loop, run_calls. revert st.
  induction rounds as [|w rounds IH]; intros st; [reflexivity|].
  simpl. unfold do_call at 2 4. simpl.
  rewrite detect_without_user by reflexivity. apply IH.
Qed.

End DetectorWithoutUser.

(** * The message handler *)

Section Handler.

Import Props main websocket_handler.

Lemma combine_emotions_label (fe : string) (fc : float) (ve : string) (vc : float) :
  fst (combine_emotions fe fc ve vc) = fe \/ fst (combine_emotions fe fc ve vc) = ve.
Proof.
  unfold combine_emotions.
  destruct (fc <? 0.4); [now right|].
  destruct (vc <? 0.4); [now left|].
  destruct (String.eqb fe ve); [now left|].
  destruct (Py.gtb _ _); [now right|now left].
Qed.

Lemma analyze_voice_tone_in (text : string) :
  In (fst (analyze_voice_tone text)) tone_labels.
Proof.
  unfold analyze_voice_tone, tone_labels.
  destruct text as [|c text]; [simpl; tauto|].
  destruct (Py.max_by snd (scores (String c text))) as [d|] eqn:Hd; [|simpl; tauto].
  apply max_by_spec in Hd. destruct Hd as [_ (pre & post & Heq & _)].
  assert (Hin : In d (scores (String c text))).
  { rewrite Heq. apply in_or_app. right. now left. }
  unfold scores in Hin. simpl in Hin.
  destruct Hin as [<-|[<-|[<-|[<-|[<-|[]]]]]]; simpl; tauto.
Qed.

(** X18.  A message is rejected exactly when it is blank or the session has no
    user; the blank check comes first; and a rejected message leaves the
    mood state untouched. *)
Theorem handle_message_rejection (now : Z) (user_id : option Z) (message : string)
    (cache : state) (mood : mood_state) :
  ((exists m, fst (handle_message now user_id message cache mood) = Rejected m) <->
   Py.strip message = "" \/ truthy_user user_id = None) /\
  (Py.strip message = "" ->
   fst (handle_message now user_id message cache mood) =
     Rejected "Empty message received") /\
  (forall m, fst (handle_message now user_id message cache mood) = Rejected m ->
             snd (handle_message now user_id message cache mood) = mood).
Proof.
  unfold handle_message.
  destruct (String.eqb_spec (Py.strip message) "") as [He|Hne].
  { simpl. repeat split; eauto. }
  destruct (truthy_user user_id) as [u|].
  - destruct (get_cached_emotion cache) as [fe fc].
    destruct (analyze_voice_tone (Py.strip message)) as [ve vc].
    destruct (combine_emotions fe fc ve vc) as [e c].
    destruct (update_mood now e "neutral" mood) as [ms ch]. simpl.
    split; [split|split].
    + intros [m Hm]. discriminate.
    + intros [H|H]; [congruence|discriminate].
    + congruence.
    + intros m Hm. discriminate.
  - simpl. repeat split; eauto. congruence.
Qed.

(** X19.  An accepted message: the fused label is the cached face label or one
    of the five tone labels; the voice sentiment being the constant
    [neutral], the mood is a function of that label alone -- [low] for
    [angry], [sad] and [fear], [cheerful] for [happy] and [surprise],
    [neutral] otherwise; the mood state holds that mood and the time of
    the call; and the persona is the one chosen for the mood: Luna, Kai
    or Echo. *)
Theorem handle_message_selection (now : Z) (user_id : option Z) (message : string)
    (cache : state) (mood : mood_state) (s : selection) :
  fst (handle_message now user_id message cache mood) = Selected s ->
  (sel_emotion s = fst (get_cached_emotion cache) \/ In (sel_emotion s) tone_labels) /\
  sel_mood s = combine_moods (sel_emotion s) "neutral" /\
  (sel_mood s = "low" <-> In (sel_emotion s) ["angry"; "sad"; "fear"]) /\
  (sel_mood s = "cheerful" <-> In (sel_emotion s) ["happy"; "surprise"]) /\
  combined_mood (snd (handle_message now user_id message cache mood)) = sel_mood s /\
  last_update (snd (handle_message now user_id message cache mood)) = now /\
  sel_persona s = choose_personality (sel_mood s) /\
  In (name (sel_persona s)) ["Luna"; "Kai"; "Echo"].
Proof.
  unfold handle_message.
  destruct (String.eqb (Py.strip message) ""); [discriminate|].
  destruct (truthy_user user_id) as [u|]; [|discriminate].
  pose proof (combine_emotions_label
                (fst (get_cached_emotion cache)) (snd (get_cached_emotion cache))
                (fst (analyze_voice_tone (Py.strip message)))
                (snd (analyze_voice_tone (Py.strip message)))) as Hlab.
  pose proof (analyze_voice_tone_in (Py.strip message)) as Hin.
  destruct (get_cached_emotion cache) as [fe fc].
  destruct (analyze_voice_tone (Py.strip message)) as [ve vc].
  simpl in Hlab, Hin.
  destruct (combine_emotions fe fc ve vc) as [e c]. simpl in Hlab.
  assert (Hmood : combined_mood (fst (update_mood now e "neutral" mood)) =
                  combine_moods e "neutral" /\
                  last_update (fst (update_mood now e "neutral" mood)) = now).
  { unfold update_mood.
    destruct (String.eqb_spec (combine_moods e "neutral") (combined_mood mood));
      simpl; auto. }
  destruct (update_mood now e "neutral" mood) as [ms ch]. simpl in *.
  destruct Hmood as [Hm Hnow].
  intros H. injection H as <-. simpl.
  split; [destruct Hlab as [->| ->]; auto|].
  split; [exact Hm|]. rewrite Hm.
  assert (Hlow : combine_moods e "neutral" = "low" <-> In e ["angry"; "sad"; "fear"]).
  { unfold combine_moods. simpl. rewrite !orb_false_r.
    destruct (String.eqb_spec e "angry"), (String.eqb_spec e "sad"),
             (String.eqb_spec e "fear"); simpl; subst;
      try (split; [intros _; simpl; tauto|reflexivity]).
    destruct (_ || _); split; try discriminate; simpl; intuition congruence. }
  assert (Hch : combine_moods e "neutral" = "cheerful" <-> In e ["happy"; "surprise"]).
  { unfold combine_moods. simpl. rewrite !orb_false_r.
    destruct (String.eqb_spec e "angry"), (String.eqb_spec e "sad"),
             (String.eqb_spec e "fear"); simpl; subst;
      try (split; [discriminate|simpl; intuition discriminate]).
    destruct (String.eqb_spec e "happy"), (String.eqb_spec e "surprise"); simpl; subst;
      try (split; [intros _; simpl; tauto|reflexivity]).
    split; [discriminate|simpl; intuition congruence]. }
  repeat split; try (apply Hlow); try (apply Hch); try assumption; try reflexivity.
  destruct (combine_moods_range e "neutral") as [H|[H|[H|[]]]]; rewrite <- H;
    simpl; tauto.
Qed.

End Handler.

(** * What the language model is sent *)

Section ChatHistory.

Import Props conversation_memory ai_core.

Lemma flat_map_kept_length {A B} (f : A -> list B) (xs : list A) :
  (forall x, length (f x) <= 1)%nat ->
  (length (flat_map f xs) <= length xs)%nat.
Proof.
  intros Hf. induction xs as [|x xs IH]; simpl; [lia|].
  rewrite length_app. specialize (Hf x). lia.
Qed.

Lemma skipn_incl {A} (j : nat) (xs : list A) (x : A) :
  In x (skipn j xs) -> In x xs.
Proof.
  intros H. rewrite <- (firstn_skipn j xs). apply in_or_app. now right.
Qed.

Lemma slice_last_incl {A} (n : Z) (xs : list A) (x : A) :
  In x (Py.slice_last n xs) -> In x xs.
Proof.
  unfold Py.slice_last. destruct (0 <? n)%Z; apply skipn_incl.
Qed.

Lemma slice_last_length {A} (n : Z) (xs : list A) :
  (length (Py.slice_last n xs) <= length xs)%nat /\
  ((0 < n)%Z -> (length (Py.slice_last n xs) <= Z.to_nat n)%nat).
Proof.
  unfold Py.slice_last. destruct (Z.ltb_spec 0 n); rewrite length_skipn; split; lia.
Qed.

(** X20.  The list sent to the model starts with the system prompt and ends
    with the user's text; every message between them has a content that
    is not empty and comes from a message of the history, with [user]
    for a missing role; there are at most as many as the history has,
    and for a positive context length at most that many; a context
    length of 0 trims nothing. *)
Theorem chat_history_shape (N : Z) (prompt : string)
    (history : list (list (string * string))) (user_text : string) :
  exists middle,
    chat_history N prompt history user_text =
      {| role := "system"; content := prompt |} ::
      middle ++ [{| role := "user"; content := user_text |}] /\
    (forall m, In m middle ->
       content m <> "" /\
       exists msg, In msg history /\
                   role m = msg_get msg "role" "user" /\
                   content m = msg_get msg "content" "") /\
    (length middle <= length history)%nat /\
    ((0 < N)%Z -> (length middle <= Z.to_nat N)%nat) /\
    (N = 0%Z ->
     forall msg, In msg history -> msg_get msg "content" "" <> "" ->
       In {| role := msg_get msg "role" "user";
             content := msg_get msg "content" "" |} middle).
Proof.
  unfold chat_history.
  set (keep := fun msg : list (string * string) =>
                 if String.eqb (msg_get msg "content" "") "" then []
                 else [{| role := msg_get msg "role" "user";
                          content := msg_get msg "content" "" |}]).
  exists (flat_map keep (Py.slice_last N history)).
  assert (Hk : forall x, (length (keep x) <= 1)%nat).
  { intros x. unfold keep. destruct (String.eqb _ _); simpl; lia. }
  destruct (slice_last_length N history) as [Hall Hpos].
  pose proof (flat_map_kept_length keep (Py.slice_last N history) Hk) as Hlen.
  split; [reflexivity|]. split; [|split; [lia|split]].
  - intros m Hm. apply in_flat_map in Hm. destruct Hm as (msg & Hmsg & Hin).
    unfold keep in Hin.
    destruct (String.eqb_spec (msg_get msg "content" "") "") as [He|Hne];
      [destruct Hin|].
    destruct Hin as [<-|[]]. simpl. split; [exact Hne|].
    exists msg. split; [now apply slice_last_incl in Hmsg|split; reflexivity].
  - intros HN. specialize (Hpos HN). lia.
  - intros -> msg Hmsg Hne. apply in_flat_map. exists msg.
    split; [exact Hmsg|]. unfold keep.
    destruct (String.eqb_spec (msg_get msg "content" "") ""); [contradiction|now left].
Qed.

Lemma context_of_skipn (j : nat) (rows : list conversation) :
  skipn (2 * j)
    (flat_map
       (fun row =>
          [[("role", "user"); ("content", user_message row)];
           [("role", "assistant"); ("content", bot_response row)]]) rows) =
  flat_map
    (fun row =>
       [[("role", "user"); ("content", user_message row)];
        [("role", "assistant"); ("content", bot_response row)]]) (skipn j rows).
Proof.
  revert rows. induction j as [|j IH]; intros rows; [reflexivity|].
  destruct rows as [|row rows]; [reflexivity|].
  replace (2 * S j)%nat with (S (S (2 * j))) by lia. simpl skipn. apply IH.
Qed.

Lemma context_of_length (recent : list conversation) :
  length (context_of recent) = (2 * length recent)%nat.
Proof.
  unfold context_of. rewrite <- (length_rev recent).
  induction (rev recent) as [|row rows IH]; simpl; [reflexivity|]. rewrite IH. lia.
Qed.

(** Of the rows handed to [context_of], the slice of [2 * k] messages
    keeps those of the first [k]. *)
Lemma slice_of_context (k : nat) (prompt : string)
    (recent : list conversation) (user_text : string) :
  (0 < k)%nat ->
  chat_history (Z.of_nat (2 * k)) prompt (context_of recent) user_text =
  chat_history (Z.of_nat (2 * k)) prompt (context_of (firstn k recent)) user_text.
Proof.
  intros Hk. unfold chat_history. do 3 f_equal.
  unfold Py.slice_last.
  replace (0 <? Z.of_nat (2 * k))%Z with true by (symmetry; apply Z.ltb_lt; lia).
  rewrite Nat2Z.id, !context_of_length.
  assert (Hf : (length (firstn k recent) <= k)%nat) by apply firstn_le_length.
  replace (2 * length (firstn k recent) - 2 * k)%nat with O by lia.
  replace (2 * length recent - 2 * k)%nat with (2 * (length recent - k))%nat by lia.
  simpl skipn at 2. unfold context_of.
  rewrite context_of_skipn, skipn_rev. do 2 f_equal.
  destruct (Nat.le_gt_cases k (length recent)) as [Hle|Hgt].
  - f_equal. lia.
  - replace (length recent - (length recent - k))%nat with (length recent) by lia.
    rewrite firstn_all. symmetry. apply firstn_all2. lia.
Qed.

(** X21.  The handler asks [get_context_for_ai] for as many exchanges as
    the context length says, gets two messages for each, and
    [generate_response] then keeps that many messages: with an even
    context length [2 * k], of the up to [2 * k] rows fetched only the
    first [k], in the order in which the query returned them, reach
    the model; the rows after them change nothing. *)
Theorem context_halved (k : nat) (prompt : string)
    (ordered : list conversation) (user_text : string) :
  (0 < k)%nat ->
  chat_history (Z.of_nat (2 * k)) prompt
    (get_context_for_ai ordered (Z.of_nat (2 * k))) user_text =
  chat_history (Z.of_nat (2 * k)) prompt (context_of (firstn k ordered)) user_text.
Proof.
  intros Hk. unfold get_context_for_ai, get_recent_conversations.
  replace (Z.of_nat (2 * k) <? 0)%Z with false by (symmetry; apply Z.ltb_ge; lia).
  rewrite Nat2Z.id, (slice_of_context k _ _ _ Hk), firstn_firstn.
  replace (Nat.min k (2 * k)) with k by lia. reflexivity.
Qed.

End ChatHistory.

(** * Instances of the properties that have a precondition *)

(** User 2 keeps the [angry] sample when user 1 is cleared. *)
Lemma calibration_isolated_witness :
  2%Z <> 1%Z /\
  has_calibration (clear_calibration calibrated_db true 1) 2 = true /\
  get_user_calibration (clear_calibration calibrated_db true 1) 2 =
    [("angry", [[1; 1]])].
Proof.
  assert (Hne : 2%Z <> 1%Z) by discriminate.
  split; [exact Hne|].
  destruct (calibration_isolated left_numpy represent_near_happy calibrated_db true
              1 2 "happy" [] Hne)
    as [[Hhas [Hget _]] _].
  split; [rewrite Hhas|rewrite Hget]; reflexivity.
Defined.

(** User 1 of [calibrated_db] in front of the camera: the call returns
    the match, [happy] at 0.8, and not the classifier's [fear]. *)
Lemma personalized_match_returned_witness :
  (1%Z <> 0%Z /\
   has_calibration calibrated_db 1 = true /\
   match_emotion left_numpy calibrated_db represent_near_happy 1 [] =
     (Some "happy", 0.8)) /\
  returned
    (detect_emotion_sync default_config
       (Props.with_calibration fear_world calibrated_db represent_near_happy)
       (Some 1%Z) true initial_state) = Some ("happy", 0.8).
Proof.
  assert (Hu : 1%Z <> 0%Z) by discriminate.
  split; [split; [exact Hu|split; reflexivity]|].
  destruct (personalized_match_returned default_config
              (Props.with_calibration fear_world calibrated_db represent_near_happy)
              1 true initial_state [] "happy" 0.8
              eq_refl eq_refl Hu eq_refl eq_refl) as [_ ->]; [discriminate|].
  reflexivity.
Defined.

(** The user id 0 counts as no user, whatever the store holds. *)
Lemma detect_emotion_sync_anonymous_witness :
  (Some 0%Z = None \/ Some 0%Z = Some 0%Z) /\
  detect_emotion_sync default_config
    (Props.with_calibration fear_world calibrated_db represent_near_happy)
    (Some 0%Z) true initial_state =
  detect_emotion_sync default_config fear_world (Some 0%Z) true initial_state.
Proof.
  assert (H : Some 0%Z = None \/ Some 0%Z = Some 0%Z) by (right; reflexivity).
  split; [exact H|].
  exact (proj1 (detect_emotion_sync_anonymous default_config fear_world calibrated_db
                  represent_near_happy (Some 0%Z) true initial_state H)).
Defined.

(** A quiet message of a logged-in user, with nothing in the cache yet:
    the selection is [neutral] and Echo. *)
Lemma handle_message_selection_witness :
  fst (websocket_handler.handle_message 5 (Some 1%Z) "ok then" initial_state
         (initial_mood_state 0)) =
    websocket_handler.Selected
      {| websocket_handler.sel_emotion := "neutral";
         websocket_handler.sel_confidence := 0.5;
         websocket_handler.sel_mood := "neutral";
         websocket_handler.sel_persona := main.neutral_profile |} /\
  combined_mood
    (snd (websocket_handler.handle_message 5 (Some 1%Z) "ok then" initial_state
            (initial_mood_state 0))) = "neutral".
Proof.
  assert (H : fst (websocket_handler.handle_message 5 (Some 1%Z) "ok then"
                     initial_state (initial_mood_state 0)) =
              websocket_handler.Selected
                {| websocket_handler.sel_emotion := "neutral";
                   websocket_handler.sel_confidence := 0.5;
                   websocket_handler.sel_mood := "neutral";
                   websocket_handler.sel_persona := main.neutral_profile |})
    by reflexivity.
  split; [exact H|].
  destruct (handle_message_selection 5 (Some 1%Z) "ok then" initial_state
              (initial_mood_state 0) _ H) as (_ & _ & _ & _ & Hm & _).
  exact Hm.
Defined.

(** With a context length of 2, two rows are fetched and the second of
    them is dropped. *)
Lemma context_halved_witness :
  (0 < 1)%nat /\
  ai_core.chat_history 2 "prompt"
    (conversation_memory.get_context_for_ai
       [{| conversation_memory.user_message := "and now?";
           conversation_memory.bot_response := "now this" |};
        {| conversation_memory.user_message := "hello";
           conversation_memory.bot_response := "hi" |};
        {| conversation_memory.user_message := "first";
           conversation_memory.bot_response := "welcome" |}] 2) "bye" =
  [{| ai_core.role := "system"; ai_core.content := "prompt" |};
   {| ai_core.role := "user"; ai_core.content := "and now?" |};
   {| ai_core.role := "assistant"; ai_core.content := "now this" |};
   {| ai_core.role := "user"; ai_core.content := "bye" |}].
Proof.
  assert (H : (0 < 1)%nat) by repeat constructor.
  split; [exact H|].
  refine (eq_trans (context_halved 1 "prompt"
             [{| conversation_memory.user_message := "and now?";
                 conversation_memory.bot_response := "now this" |};
              {| conversation_memory.user_message := "hello";
                 conversation_memory.bot_response := "hi" |};
              {| conversation_memory.user_message := "first";
                 conversation_memory.bot_response := "welcome" |}] "bye" H) _).
  reflexivity.
Defined.
